(** * tefla: synchronous distributed trainer ([tefla/core/learning_distributed.py])

    A shallow embedding of [DistSupervisedTrainer].  The class is a sequencing
    layer over a deep-learning framework, so the embedding keeps what the
    Python source itself decides: the order of the framework calls, their
    arguments, the control flow, and the exceptions the interpreter raises
    (unbound locals, missing attributes, unexpected keyword arguments, failed
    assertions).  Framework calls are recorded as events of a trace and are
    taken to return normally; the values the source inspects (the answer of
    [sv.should_stop()], the loss and step of a training run) come from an
    environment record.  Wall-clock code (summary timing, examples per
    second) is left out. *)

From Stdlib Require Import ZArith List String Ascii Bool Lia DecimalString DecimalZ.
From stdpp Require Import base option gmap strings list fin_maps.

Set Warnings "-register-all".
Local Open Scope Z_scope.

(** ** Python values and exceptions *)

(** The values the trainer passes around.  [VDict] is a plain [dict];
    [VCallableDict] is a dict-like object that can also be called (the source
    both calls [self.cnf(...)] and uses [self.cnf.get(...)]); [VOpaque] is a
    framework object the source never looks into. *)
Inductive pyval :=
| VNone
| VBool (b : bool)
| VInt (z : Z)
| VStr (s : string)
| VFloat (repr : string)
| VList (elems : list pyval)
| VDict (items : list (string * pyval))
| VCallableDict (items : list (string * pyval))
| VOpaque (descr : string).

Inductive exn :=
| AssertionError (msg : string)
| AttributeError (attr : string)
| UnboundLocalError (var : string)
| KeyError (key : string)
| TypeError (msg : string)
| ZeroDivisionError (msg : string).

(** [UnboundLocalError] is a subclass of [NameError]; no other exception of
    this model is. *)
Definition is_NameError (e : exn) : bool :=
  match e with UnboundLocalError _ => true | _ => false end.

Definition is_AttributeError (e : exn) : bool :=
  match e with AttributeError _ => true | _ => false end.

Definition is_None (v : pyval) : bool :=
  match v with VNone => true | _ => false end.

(** Truth value of an object in a condition. *)
Definition truthy (v : pyval) : bool :=
  match v with
  | VNone => false
  | VBool b => b
  | VInt z => negb (z =? 0)
  | VStr s => negb (String.eqb s "")
  | VFloat r => negb (String.eqb r "0.0")
  | VList elems => match elems with [] => false | _ => true end
  | VDict items | VCallableDict items => match items with [] => false | _ => true end
  | VOpaque _ => true
  end.

(** ['%d' % z] *)
Definition fmt_d (z : Z) : string := NilZero.string_of_int (Z.to_int z).

(** ** Graph elements *)

Inductive optimizer :=
| BaseOptimizer (optname : pyval) (opt_kwargs : pyval)
| SyncReplicasOptimizer (opt : optimizer)
    (replicas_to_aggregate replica_id total_num_replicas : Z).

(** Tensors and operations as the source builds them.  [WithDependencies]
    is a tensor that yields [x] once the operations [deps] have run. *)
Inductive node :=
| Tensor (name : string)
| AddN (name : string) (xs : list node)
| Unpack (x : node) (i : nat)
| NoOp (name : string) (control : list node)
| WithDependencies (deps : list node) (x : node)
| CheckNumerics (x : node) (msg : string)
| ComputeGradients (opt : optimizer) (loss : node) (vars : list string)
    (gate_gradients : string) (aggregation_method colocate : pyval)
| ClipGradNorms (g : node) (max_norm : Z)
| ClipGradGlobalNorms (opt : optimizer) (loss : node) (vars : list string)
    (global_norm : Z) (gate_gradients : string) (noise aggregation_method colocate : pyval)
| MultiplyGradients (g : node) (multipliers : pyval)
| ApplyGradients (opt : optimizer) (g : node) (global_step : node).

Inductive device :=
| DeviceName (name : string)
| ReplicaDeviceSetter (cluster : gmap string (list string)).

Record FixedLenFeature := mkFeature {
  shape : list Z;
  dtype : string;
  default_value : pyval
}.

Record Dataflow := mkDataflow {
  df_dataset_name : pyval;
  df_decoder_keys : list (string * FixedLenFeature);
  df_datadir : string;
  df_num_readers : pyval;
  df_shuffle : bool;
  df_min_queue_examples : pyval;
  df_capacity : pyval
}.

Record Dataset := mkDataset {
  n_iters_per_epoch : Z;
  n_val_iters_per_epoch : Z
}.

(** ** Events *)

Inductive event :=
| ECall (fn : string) (kwargs : list (string * pyval))
| EVariable (devs : list device) (name : string) (trainable : bool)
| EOp (devs : list device) (descr : string)
| EOptimizer (o : optimizer)
| ESupervisor (is_chief : bool)
| EPrepareOrWaitForSession (target : string)
| EStartQueueRunners (chief_runners : bool)
| ERunInitTokens
| ELoadWeights (path : string)
| ETrainStep (k : nat)
| EValStep
| ESave (step : option Z)
| ERunCleanUp
| ESvStop
| ECoordRequestStop
| ECoordJoin
| EMkdir
| EDecoder (keys : list (string * FixedLenFeature))
| EDataset (name : pyval) (datadir : string)
| EDataflow (d : Dataflow)
| EExtern (method : string).

(** ** State, environment and the execution monad *)

(** [attrs] is what attribute lookup on [self] finds: the instance dictionary
    over the class attributes. *)
Record St := mkSt {
  attrs : gmap string pyval;
  trace : list event;
  losses_collection : list node;
  n_runs : nat;
  n_stop : nat
}.

(** What the framework and the missing base class answer:
    - [should_stop k]: the answer to the [k]-th call of [sv.should_stop()];
    - [sess_run_train k]: whether the loss of the [k]-th training run is NaN,
      and the global step it returns;
    - [len_images], [len_val_images]: [len(images)] and [len(val_images)];
    - the graph collections [UPDATE_OPS] and [tf.trainable_variables()], and
      the variables the model function creates;
    - [weights_dir_exists]: [os.path.exists(self.weights_dir)];
    - [exn_has_message]: whether exceptions carry [.message] (Python 2);
    - [tensor_iterable]: whether a tensor can be unpacked by assignment;
    - [base_init]: what [Base.__init__] does to the attributes. *)
Record Env := mkEnv {
  should_stop : nat -> bool;
  sess_run_train : nat -> bool * Z;
  len_images : Z;
  len_val_images : Z;
  update_ops_collection : list string;
  trainable_variables : list string;
  model_variables : list string;
  weights_dir_exists : bool;
  exn_has_message : bool;
  tensor_iterable : bool;
  base_init : pyval -> pyval -> gmap string pyval -> gmap string pyval
}.

Inductive res (A : Type) :=
| Ok (a : A)
| Raise (e : exn)
| OutOfFuel.
Arguments Ok {A} a.
Arguments Raise {A} e.
Arguments OutOfFuel {A}.

Definition M (A : Type) : Type := St -> res A * St.

Definition ret {A} (a : A) : M A := fun st => (Ok a, st).

Definition bind {A B} (m : M A) (k : A -> M B) : M B :=
  fun st =>
    match m st with
    | (Ok a, st') => k a st'
    | (Raise e, st') => (Raise e, st')
    | (OutOfFuel, st') => (OutOfFuel, st')
    end.

Definition raise {A} (e : exn) : M A := fun st => (Raise e, st).

Definition out_of_fuel {A} : M A := fun st => (OutOfFuel, st).

Notation "x <- m ;; k" := (bind m (fun x => k))
  (at level 90, m at level 80, right associativity, only parsing).
Notation "m ;;; k" := (bind m (fun _ => k))
  (at level 90, right associativity, only parsing).

Definition emit (e : event) : M unit :=
  fun st => (Ok tt, mkSt (attrs st) (trace st ++ [e]) (losses_collection st)
                       (n_runs st) (n_stop st)).

(** [self.name] *)
Definition getattr (name : string) : M pyval :=
  fun st =>
    match attrs st !! name with
    | Some v => (Ok v, st)
    | None => (Raise (AttributeError name), st)
    end.

(** [self.name = v] *)
Definition setattr (name : string) (v : pyval) : M unit :=
  fun st => (Ok tt, mkSt (<[name := v]> (attrs st)) (trace st) (losses_collection st)
                       (n_runs st) (n_stop st)).

(** [try: body except Exception as e: handler(e)] *)
Definition try_except {A} (body : M A) (handler : exn -> M A) : M A :=
  fun st =>
    match body st with
    | (Raise e, st') => handler e st'
    | r => r
    end.

(** [assert cond, msg] *)
Definition py_assert (cond : bool) (msg : string) : M unit :=
  if cond then ret tt else raise (AssertionError msg).

Fixpoint assoc (k : string) (items : list (string * pyval)) : option pyval :=
  match items with
  | [] => None
  | (k', v) :: rest => if String.eqb k k' then Some v else assoc k rest
  end.

(** [d.get(key, default)] *)
Definition dict_get (d : pyval) (key : string) (default : pyval) : M pyval :=
  match d with
  | VDict items | VCallableDict items =>
      ret (match assoc key items with Some v => v | None => default end)
  | _ => raise (AttributeError "get")
  end.

(** [d[key]] *)
Definition dict_getitem (d : pyval) (key : string) : M pyval :=
  match d with
  | VDict items | VCallableDict items =>
      match assoc key items with Some v => ret v | None => raise (KeyError key) end
  | _ => raise (TypeError "object is not subscriptable")
  end.

(** [d(...)] *)
Definition py_call (d : pyval) : M pyval :=
  match d with
  | VCallableDict _ => ret (VOpaque "call result")
  | VOpaque _ => ret (VOpaque "call result")
  | _ => raise (TypeError "object is not callable")
  end.

(** [self.cnf.get(key, default)] *)
Definition cnf_get (key : string) (default : pyval) : M pyval :=
  cnf <- getattr "cnf" ;; dict_get cnf key default.

(** The events a computation adds to the trace. *)
Definition emitted {A} (m : M A) (st : St) : list event :=
  drop (length (trace st)) (trace (snd (m st))).

Definition result {A} (m : M A) (st : St) : res A := fst (m st).

(** [tf.add_to_collection('losses', x)] *)
Definition add_loss (x : node) : M unit :=
  fun st => (Ok tt, mkSt (attrs st) (trace st) (losses_collection st ++ [x])
                       (n_runs st) (n_stop st)).

(** [tf.get_collection('losses')] *)
Definition get_losses : M (list node) :=
  fun st => (Ok (losses_collection st), st).

(** Binding of the positional and keyword arguments of a call to the
    parameter names [params] of [def f], with [defaults] for the optional
    ones: positional arguments in order, then keywords by name. *)
Fixpoint bind_positional (fname : string) (params : list string) (args : list pyval)
  : res (list (string * pyval)) :=
  match args, params with
  | [], _ => Ok []
  | a :: args', p :: params' =>
      match bind_positional fname params' args' with
      | Ok b => Ok ((p, a) :: b)
      | r => r
      end
  | _ :: _, [] => Raise (TypeError (fname +:+ "() takes fewer positional arguments"))
  end.

Fixpoint bind_keywords (fname : string) (params : list string)
    (bound : list (string * pyval)) (keywords : list (string * pyval))
  : res (list (string * pyval)) :=
  match keywords with
  | [] => Ok bound
  | (k, v) :: rest =>
      if negb (existsb (String.eqb k) params) then
        Raise (TypeError (fname +:+ "() got an unexpected keyword argument '" +:+ k +:+ "'"))
      else if existsb (String.eqb k) (map fst bound) then
        Raise (TypeError (fname +:+ "() got multiple values for keyword argument '" +:+ k +:+ "'"))
      else bind_keywords fname params (bound ++ [(k, v)]) rest
  end.

Definition bind_args (fname : string) (params : list string)
    (defaults : list (string * pyval)) (positional : list pyval)
    (keywords : list (string * pyval)) : M (list (string * pyval)) :=
  match bind_positional fname params positional with
  | Ok b =>
      match bind_keywords fname params b keywords with
      | Ok b' =>
          match List.find (fun p => negb (existsb (String.eqb p) (map fst (b' ++ defaults)))) params with
          | Some p => raise (TypeError (fname +:+ "() missing required argument '" +:+ p +:+ "'"))
          | None => ret (b' ++ defaults)
          end
      | Raise e => raise e
      | OutOfFuel => out_of_fuel
      end
  | Raise e => raise e
  | OutOfFuel => out_of_fuel
  end.

Definition arg (bound : list (string * pyval)) (name : string) : pyval :=
  match assoc name bound with Some v => v | None => VNone end.

(** ** The methods of [DistSupervisedTrainer] *)

Section Trainer.

Variable env : Env.

(** [super(DistSupervisedTrainer, self).__init__(model, cnf, **kwargs)] *)
Definition super_init (model cnf : pyval) : M unit :=
  fun st => (Ok tt, mkSt (base_init env model cnf (attrs st))
                       (trace st ++ [EExtern "Base.__init__"])
                       (losses_collection st) (n_runs st) (n_stop st)).

(** Lines 54-66. *)
Definition __init__ (model cnf clip_by_global_norm gradient_noise_scale
    gradient_multipliers aggregation_method colocate_gradients_with_ops : pyval) : M unit :=
  setattr "clip_by_global_norm" clip_by_global_norm ;;;
  setattr "gradient_noise_scale" gradient_noise_scale ;;;
  setattr "gradient_multipliers" gradient_multipliers ;;;
  setattr "aggregation_method" aggregation_method ;;;
  setattr "colocate_gradients_with_ops" colocate_gradients_with_ops ;;;
  v <- cnf_get "dataset_name" (VStr "imagenet") ;; setattr "dataset_name" v ;;;
  v <- cnf_get "num_readers" (VInt 8) ;; setattr "num_readers" v ;;;
  v <- cnf_get "min_queue_examples" (VInt 1000) ;; setattr "min_queue_examples" v ;;;
  v <- cnf_get "capacity" (VInt 2000) ;; setattr "capacity" v ;;;
  v <- cnf_get "feature_keys" VNone ;; setattr "feature_keys" v ;;;
  super_init model cnf.

Definition default_features_keys : list (string * FixedLenFeature) :=
  [ ("image/encoded/image", mkFeature [] "string" (VStr ""));
    ("image/format", mkFeature [] "string" (VStr "jpg"));
    ("image/class/label", mkFeature [] "int64" (VOpaque "tf.zeros([], dtype=tf.int64)")) ].

(** Lines 98-112.  The local [features_keys] is bound only in the branch
    [feature_keys is None]. *)
Definition _setup_data_ops (datadir : string)
    (dataset_name feature_keys num_readers min_queue_examples capacity : pyval) : M Dataflow :=
  let features_keys :=
    if is_None feature_keys then Some default_features_keys else None in
  keys <- match features_keys with
          | Some k => ret k
          | None => raise (UnboundLocalError "features_keys")
          end ;;
  emit (EDecoder keys) ;;;
  emit (EDataset dataset_name datadir) ;;;
  let dataflow := mkDataflow dataset_name keys datadir num_readers true
                    min_queue_examples capacity in
  emit (EDataflow dataflow) ;;;
  ret dataflow.

(** Lines 114-118. *)
Definition _setup_misc : M unit :=
  v <- cnf_get "num_epochs" (VInt 500) ;; setattr "num_epochs" v ;;;
  setattr "update_ops" (VList (map VStr (update_ops_collection env))) ;;;
  update_ops <- getattr "update_ops" ;;
  match update_ops with
  | VList [] => setattr "update_ops" VNone
  | _ => ret tt
  end.

(** ['%d' % v] for an attribute value; the text is only logged, and that of
    a float is left as its literal. *)
Definition fmt_d_val (v : pyval) : M string :=
  match v with
  | VInt z => ret (fmt_d z)
  | VBool b => ret (if b then "1" else "0")
  | VFloat r => ret r
  | _ => raise (TypeError "%d format: a number is required")
  end.

(** Lines 122-147: logging only, but it reads [self.cnf], [self.num_epochs]
    and [self.training_end_points]. *)
Definition _print_info : M unit :=
  _ <- getattr "cnf" ;;
  emit (EExtern "data_set.print_info") ;;;
  num_epochs <- getattr "num_epochs" ;;
  _ <- fmt_d_val num_epochs ;;
  _ <- getattr "training_end_points" ;;
  emit (EExtern "_print_layer_shapes").

(** [_, = t] and [a, b = t] on a tensor. *)
Definition unpack1 (t : node) : M node :=
  if tensor_iterable env then ret (Unpack t 0)
  else raise (TypeError "'Tensor' object is not iterable").

(** Lines 346-360 and 362-377; [kind] is the name of the mean loss. *)
Definition _loss (devs : list device) (kind : string) (is_training : pyval) : M node :=
  emit (EOp devs kind) ;;;
  let loss_mean := Tensor kind in
  if truthy is_training then
    add_loss loss_mean ;;;
    l2_reg <- cnf_get "l2_reg" (VFloat "0.0") ;;
    add_loss (Tensor "l2_loss") ;;;
    losses <- get_losses ;;
    ret (AddN "total_loss" losses)
  else ret loss_mean.

Definition _loss_regression (devs : list device) (is_training : pyval) : M node :=
  _loss devs "regression" is_training.

Definition _loss_softmax (devs : list device) (is_training : pyval) : M node :=
  _loss devs "cross_entropy" is_training.

Inductive tower_result :=
| TowerTrain (losses : list node) (total_loss : node)
| TowerVal (total_loss : node).

(** [model(images, is_training=..., reuse=...)]: the model function creates
    its variables unless it reuses them. *)
Definition call_model (devs : list device) (reuse : pyval) : M unit :=
  (if truthy reuse then ret tt
   else fold_right (fun v k => emit (EVariable devs v true) ;;; k) (ret tt)
          (model_variables env)) ;;;
  emit (EOp devs "model").

(** The summary loop [for l in losses + [total_loss]] of lines 391-394. *)
Fixpoint tower_summaries (devs : list device) (ls : list node) : M unit :=
  match ls with
  | [] => ret tt
  | _ :: rest =>
      cnf <- getattr "cnf" ;;
      _ <- dict_getitem cnf "TOWER_NAME" ;;
      emit (EOp devs "scalar_summary") ;;;
      tower_summaries devs rest
  end.

(** Lines 379-408.  The sixth parameter is spelled [resue] in the source. *)
Definition _tower_loss_params : list string :=
  ["scope"; "model"; "images"; "labels"; "is_training"; "resue"; "is_classification"].

Definition _tower_loss (devs : list device)
    (scope model images labels is_training resue is_classification : pyval) : M tower_result :=
  if truthy is_training then
    call_model devs resue ;;;
    setattr "training_end_points" (VOpaque "end_points") ;;;
    _ <- getattr "training_end_points" ;;
    l <- (if truthy is_classification then _loss_softmax devs is_training
          else _loss_regression devs is_training) ;;
    _ <- unpack1 l ;;
    losses <- get_losses ;;
    let total_loss := AddN "total_loss" losses in
    emit (EOp devs "total_loss") ;;;
    tower_summaries devs (losses ++ [total_loss]) ;;;
    ret (TowerTrain losses total_loss)
  else
    call_model devs resue ;;;
    setattr "validation_end_points" (VOpaque "end_points") ;;;
    _ <- getattr "validation_end_points" ;;
    total_loss <- (if truthy is_classification then _loss_softmax devs is_training
                   else _loss_regression devs is_training) ;;
    _ <- getattr "validation_end_points" ;;
    setattr "validation_predictions" (VOpaque "predictions") ;;;
    ret (TowerVal total_loss).

(** [losses, total_loss = r] *)
Definition unpack2 (r : tower_result) : M (list node * node) :=
  match r with
  | TowerTrain losses total_loss => ret (losses, total_loss)
  | TowerVal t =>
      if tensor_iterable env then ret ([Unpack t 0], Unpack t 1)
      else raise (TypeError "'Tensor' object is not iterable")
  end.

(** Lines 417-436: the chief's loss averages and the optimizer. *)
Definition _setup_model_loss_optimizer (devs : list device) (losses : list node)
    (total_loss : node) (is_chief : bool) (task_id num_workers : Z)
    (global_step : pyval) (num_replicas_to_aggregate : Z) : M (node * optimizer) :=
  total_loss <- (if is_chief then
                   emit (EOp devs "loss_averages") ;;;
                   ret (WithDependencies [Tensor "loss_averages_op"] total_loss)
                 else ret total_loss) ;;
  mv_decay <- cnf_get "mv_decay" (VFloat "0.9") ;;
  emit (EOp devs "ExponentialMovingAverage") ;;;
  _ <- getattr "lr_policy" ;;
  optname <- cnf_get "optname" (VStr "momentum") ;;
  opt_kwargs <- cnf_get "opt_kwargs" (VDict [("decay", VFloat "0.9")]) ;;
  match opt_kwargs with
  | VDict _ | VCallableDict _ => ret tt
  | _ => raise (TypeError "argument after ** must be a mapping")
  end ;;;
  let opt := BaseOptimizer optname opt_kwargs in
  let opt := SyncReplicasOptimizer opt num_replicas_to_aggregate task_id num_workers in
  emit (EOptimizer opt) ;;;
  ret (total_loss, opt).

(** Lines 410-436. *)
Definition _setup_model_loss (devs : list device)
    (inputs labels validation_inputs validation_labels : pyval) (is_chief : bool)
    (task_id num_workers : Z) (is_training scope : pyval) (initial_lr reuse global_step : pyval)
    (num_replicas_to_aggregate : Z) : M (node * optimizer * node) :=
  emit (ECall "_setup_model_loss"
          [("reuse", reuse); ("global_step", global_step);
           ("num_replicas_to_aggregate", VInt num_replicas_to_aggregate)]) ;;;
  model <- getattr "model" ;;
  r <- _tower_loss devs scope model inputs labels is_training reuse (VBool true) ;;
  lt <- unpack2 r ;;
  model <- getattr "model" ;;
  b <- bind_args "_tower_loss" _tower_loss_params [("is_classification", VBool true)]
         [scope; model; validation_inputs; validation_labels]
         [("is_training", VBool false); ("reuse", VBool true);
          ("is_classification", VBool true)] ;;
  v <- _tower_loss devs (arg b "scope") (arg b "model") (arg b "images") (arg b "labels")
         (arg b "is_training") (arg b "resue") (arg b "is_classification") ;;
  val_total_loss <- match v with
                    | TowerTrain ls t => ret (Tensor "tuple")
                    | TowerVal t => ret t
                    end ;;
  to <- _setup_model_loss_optimizer devs (fst lt) (snd lt) is_chief task_id num_workers
          global_step num_replicas_to_aggregate ;;
  ret (fst to, snd to, val_total_loss).

(** Lines 438-513. *)
Definition create_train_op (devs : list device) (total_loss : node) (opt : optimizer)
    (global_step : option node) (update_ops variables_to_train : option (list string))
    (clip_grad_global_norm gradient_noise_scale gradient_multipliers : pyval)
    (gate_gradients : string) (aggregation_method colocate_gradients_with_ops : pyval)
  : M node :=
  global_step <- match global_step with
                 | None => emit (EVariable devs "global_step" false) ;;;
                           ret (Tensor "global_step")
                 | Some g => ret g
                 end ;;
  let global_update_ops := remove_dups (update_ops_collection env) in
  let update_ops := match update_ops with
                    | None => global_update_ops
                    | Some l => remove_dups l
                    end in
  let total_loss := match update_ops with
                    | [] => total_loss
                    | _ => WithDependencies
                             [NoOp "update_barrier" (map Tensor update_ops)] total_loss
                    end in
  variables_to_train <-
    match variables_to_train with
    | None => ret (trainable_variables env)
    | Some l =>
        py_assert (forallb (fun v => existsb (String.eqb v) (trainable_variables env)) l) "" ;;;
        ret l
    end ;;
  py_assert (match variables_to_train with [] => false | _ => true end) "" ;;;
  let grads_and_vars :=
    if truthy clip_grad_global_norm then
      ClipGradGlobalNorms opt total_loss variables_to_train 8 gate_gradients
        gradient_noise_scale aggregation_method colocate_gradients_with_ops
    else
      ClipGradNorms (ComputeGradients opt total_loss variables_to_train gate_gradients
                       aggregation_method colocate_gradients_with_ops) 8 in
  let grads_and_vars :=
    if is_None gradient_multipliers then grads_and_vars
    else MultiplyGradients grads_and_vars gradient_multipliers in
  let grad_updates := ApplyGradients opt grads_and_vars global_step in
  emit (EOp devs "apply_gradients") ;;;
  let total_loss := CheckNumerics total_loss "LossTensor is inf or nan" in
  emit (EOp devs "train_op") ;;;
  ret (WithDependencies [grad_updates] total_loss).

(** *** The training loop of [train] *)

(** The locals of [train] that live across iterations.  [step] and
    [format_str] are bound by the first assignment that reaches them. *)
Record Locals := mkLocals {
  epoch : Z;
  batch_iter_idx : Z;
  step : option Z;
  format_str_bound : bool
}.

(** [np.average(xs, weights=ws)] raises when the weights sum to zero. *)
Definition np_average (count : nat) (weight : Z) : M unit :=
  if Z.of_nat count * weight =? 0
  then raise (ZeroDivisionError "Weights sum to zero, can't be normalized")
  else ret tt.

(** [sess.run([train_op, global_step], ...)] *)
Definition run_train_op : M (bool * Z) :=
  fun st => (Ok (sess_run_train env (n_runs st)),
             mkSt (attrs st) (trace st ++ [ETrainStep (n_runs st)]) (losses_collection st)
                  (S (n_runs st)) (n_stop st)).

(** [sv.should_stop()] *)
Definition sv_should_stop : M bool :=
  fun st => (Ok (should_stop env (n_stop st)),
             mkSt (attrs st) (trace st) (losses_collection st) (n_runs st) (S (n_stop st))).

(** Lines 229-265: the remaining [n] iterations of the training [for] loop;
    [done] is the number of losses appended so far.  The step is compared
    with an integer [max_steps]; a value of another type is taken as not
    comparable. *)
Fixpoint train_iterations (n : nat) (done : nat) (loc : Locals) : M (nat * Locals) :=
  match n with
  | O => ret (done, loc)
  | S n' =>
      _ <- getattr "learning_rate" ;;
      r <- run_train_op ;;
      let loss_is_nan := fst r in
      let loc := mkLocals (epoch loc) (batch_iter_idx loc) (Some (snd r))
                   (format_str_bound loc) in
      py_assert (negb loss_is_nan) "Model diverged with loss = NaN" ;;;
      max_steps <- cnf_get "max_steps" (VInt 10000000) ;;
      max_steps <- match max_steps with
                   | VInt m => ret m
                   | _ => raise (TypeError "unorderable types")
                   end ;;
      if max_steps <? snd r then ret (done, loc)
      else
        loc <- (if snd r mod 30 =? 0 then
                  _ <- cnf_get "batch_size" (VInt 32) ;;
                  ret (mkLocals (epoch loc) (batch_iter_idx loc) (step loc) true)
                else ret loc) ;;
        (if format_str_bound loc then ret tt
         else raise (UnboundLocalError "format_str")) ;;;
        _ <- cnf_get "save_summaries_secs" (VInt 180) ;;
        _ <- getattr "lr_policy" ;;
        let loc := mkLocals (epoch loc) (batch_iter_idx loc + 1) (step loc)
                     (format_str_bound loc) in
        train_iterations n' (S done) loc
  end.

(** Lines 289-293: one call of a metric function per validation metric. *)
Definition validation_metrics : M unit :=
  _ <- getattr "validation_metrics_def" ;; ret tt.

(** Lines 275-295: [n] iterations of the validation [for] loop. *)
Fixpoint validation_iterations (n : nat) : M unit :=
  match n with
  | O => ret tt
  | S n' =>
      _ <- getattr "learning_rate" ;;
      _ <- getattr "validation_predictions" ;;
      emit EValStep ;;;
      validation_metrics ;;;
      validation_iterations n'
  end.

(** Lines 226-328: the body of the [try] of one epoch. *)
Definition epoch_body (is_chief : bool) (dataset : Dataset) (loc : Locals) : M Locals :=
  r <- train_iterations (Z.to_nat (n_iters_per_epoch dataset)) 0 loc ;;
  let loc := snd r in
  np_average (fst r) (len_images env) ;;;
  _ <- getattr "validation_metrics_def" ;;
  validation_iterations (Z.to_nat (n_val_iters_per_epoch dataset)) ;;;
  np_average (Z.to_nat (n_val_iters_per_epoch dataset)) (len_val_images env) ;;;
  _ <- getattr "validation_metrics_def" ;;
  _ <- getattr "validation_metrics_def" ;;
  (if is_chief then
     _ <- getattr "weights_dir" ;;
     match step loc with
     | Some s => emit (ESave (Some s))
     | None => raise (UnboundLocalError "step")
     end
   else ret tt) ;;;
  ret (mkLocals (epoch loc + 1) (batch_iter_idx loc) (step loc) (format_str_bound loc)).

(** Lines 329-334: the handler prints [e.message], runs the clean-up
    operation and re-raises. *)
Definition epoch_handler {A} (e : exn) : M A :=
  if exn_has_message env then emit ERunCleanUp ;;; raise e
  else raise (AttributeError "message").

(** Lines 224-334: [while not sv.should_stop()]. *)
Fixpoint epoch_loop (fuel : nat) (is_chief : bool) (dataset : Dataset) (loc : Locals)
  : M Locals :=
  match fuel with
  | O => out_of_fuel
  | S fuel' =>
      stop <- sv_should_stop ;;
      if stop then ret loc
      else
        loc' <- try_except (epoch_body is_chief dataset loc) epoch_handler ;;
        epoch_loop fuel' is_chief dataset loc'
  end.

(** [len(cluster_spec.as_dict()[job])] *)
Definition cluster_job (cluster_spec : gmap string (list string)) (job : string)
  : M (list string) :=
  match cluster_spec !! job with
  | Some tasks => ret tasks
  | None => raise (KeyError job)
  end.

(** Lines 210-218: what only the chief does once the session exists.  The
    local [weights_from] is bound only when [start_epoch > 1]. *)
Definition chief_init (is_chief : bool) (start_epoch : Z) : M unit :=
  if is_chief then
    emit (EStartQueueRunners true) ;;;
    emit ERunInitTokens ;;;
    let weights_from :=
      if 1 <? start_epoch
      then Some ("weights/model-epoch-" +:+ fmt_d (start_epoch - 1) +:+ ".ckpt")
      else None in
    w <- match weights_from with
         | Some w => ret w
         | None => raise (UnboundLocalError "weights_from")
         end ;;
    if truthy (VStr w) then emit (ELoadWeights w) else ret tt
  else ret tt.

(** Lines 336-344. *)
Definition train_finish (is_chief : bool) : M unit :=
  emit ESvStop ;;;
  emit ECoordRequestStop ;;;
  emit ECoordJoin ;;;
  if is_chief then
    _ <- getattr "weights_dir" ;;
    (if weights_dir_exists env then ret tt
     else _ <- getattr "weights_dir" ;; emit EMkdir) ;;;
    _ <- getattr "weights_dir" ;;
    emit (ESave None)
  else ret tt.

(** Lines 186-344: everything [train] does once the training operation is
    built. *)
Definition train_session (fuel : nat) (devs : list device) (is_chief : bool)
    (target : string) (dataset : Dataset) (start_epoch : Z) : M unit :=
  emit (EOp devs "get_chief_queue_runner") ;;;
  emit (EOp devs "get_init_tokens_op") ;;;
  emit (EOp devs "get_clean_up_op") ;;;
  emit (EOp devs "Saver") ;;;
  emit (EOp devs "initialize_all_variables") ;;;
  _ <- cnf_get "train_dir" (VStr "/tmp") ;;
  _ <- cnf_get "save_interval_secs" (VInt 600) ;;
  emit (ESupervisor is_chief) ;;;
  cnf <- getattr "cnf" ;;
  _ <- py_call cnf ;;
  emit (EPrepareOrWaitForSession target) ;;;
  emit (EStartQueueRunners false) ;;;
  chief_init is_chief start_epoch ;;;
  _ <- cnf_get "save_summaries_secs" (VInt 180000000) ;;
  _ <- epoch_loop fuel is_chief dataset (mkLocals 1 1 None false) ;;
  train_finish is_chief.

(** [dataflow.batch_inputs(...)] followed by [self._adjust_ground_truth]. *)
Definition batch_inputs (devs : list device) (batch_size_key : string) (descr : string)
  : M unit :=
  _ <- cnf_get batch_size_key (VInt 32) ;;
  _ <- cnf_get "tfrecords_image_size" VNone ;;
  _ <- cnf_get "crop_size" VNone ;;
  _ <- cnf_get "num_preprocess_threads" (VInt 8) ;;
  emit (EOp devs descr) ;;;
  emit (EOp devs "_adjust_ground_truth").

(** Lines 160-344: [train] once the cluster has been checked. *)
Definition train_build (fuel : nat) (task_id : Z) (target : string) (dataset : Dataset)
    (cluster_spec : gmap string (list string)) (num_workers : Z) (is_training : pyval)
    (start_epoch : Z) : M unit :=
  let is_chief := task_id =? 0 in
  let devs := [ReplicaDeviceSetter cluster_spec;
               DeviceName ("/job:worker/task:" +:+ fmt_d task_id)] in
  let scope := VNone in
  emit (EVariable devs "global_step" false) ;;;
  let global_step := Tensor "global_step" in
  _ <- getattr "lr_policy" ;;
  _ <- getattr "lr_policy" ;;
  batch_inputs devs "batch_size" "batch_inputs(train)" ;;;
  batch_inputs devs "batch_size_test" "batch_inputs(validation)" ;;;
  lov <- _setup_model_loss devs (VOpaque "images") (VOpaque "labels")
           (VOpaque "val_images") (VOpaque "val_labels") is_chief task_id num_workers
           is_training scope (VOpaque "learning_rate") VNone VNone (-1) ;;
  let total_loss := fst (fst lov) in
  let opt := snd (fst lov) in
  clip_grad_global_norm <- getattr "clip_grad_global_norm" ;;
  gradient_noise_scale <- getattr "gradient_noise_scale" ;;
  gradient_multipliers <- getattr "gradient_multipliers" ;;
  aggregation_method <- getattr "aggregation_method" ;;
  colocate_gradients_with_ops <- getattr "colocate_gradients_with_ops" ;;
  train_op <- create_train_op devs total_loss opt (Some global_step) None None
                clip_grad_global_norm gradient_noise_scale gradient_multipliers
                "GATE_OP" aggregation_method colocate_gradients_with_ops ;;
  train_session fuel devs is_chief target dataset start_epoch.

(** Lines 149-344.  The number of replicas computed on lines 152-155 is not
    used afterwards: line 182 passes the literal [-1]. *)
Definition train (fuel : nat) (task_id : Z) (target : string) (dataset : Dataset)
    (dataflow : Dataflow) (cluster_spec : gmap string (list string)) (is_training : pyval)
    (start_epoch : Z) (reuse : pyval) (num_replicas_to_aggregate : Z)
    (variables_to_train : pyval) : M unit :=
  emit (ECall "train"
          [("start_epoch", VInt start_epoch); ("reuse", reuse);
           ("num_replicas_to_aggregate", VInt num_replicas_to_aggregate);
           ("variables_to_train", variables_to_train)]) ;;;
  workers <- cluster_job cluster_spec "worker" ;;
  let num_workers := Z.of_nat (length workers) in
  parameter_servers <- cluster_job cluster_spec "ps" ;;
  let num_parameter_servers := Z.of_nat (length parameter_servers) in
  let num_replicas_to_aggregate :=
    if num_replicas_to_aggregate =? -1 then num_workers else num_replicas_to_aggregate in
  py_assert ((0 <? num_workers) && (0 <? num_parameter_servers))
    " num_workers and num_parameter_servers must be > 0." ;;;
  train_build fuel task_id target dataset cluster_spec num_workers is_training start_epoch.

(** Lines 68-96. *)
Definition fit (fuel : nat) (task_id : Z) (target : string) (dataset : Dataset)
    (datadir : string) (cluster_spec : gmap string (list string)) (is_training : pyval)
    (start_epoch : Z) (reuse : pyval) (num_replicas_to_aggregate : Z)
    (variables_to_train : pyval) : M unit :=
  is_summary <- getattr "is_summary" ;;
  (if truthy is_summary then emit (EExtern "_setup_summaries") else ret tt) ;;;
  dataset_name <- getattr "dataset_name" ;;
  feature_keys <- getattr "feature_keys" ;;
  num_readers <- getattr "num_readers" ;;
  min_queue_examples <- getattr "min_queue_examples" ;;
  capacity <- getattr "capacity" ;;
  dataflow <- _setup_data_ops datadir dataset_name feature_keys num_readers
                min_queue_examples capacity ;;
  _setup_misc ;;;
  _print_info ;;;
  train fuel task_id target dataset dataflow cluster_spec is_training
    1 VNone (-1) VNone.

End Trainer.


(** ** Specification vocabulary *)

(** The assertion of line 157. *)
Definition cluster_assertion : exn :=
  AssertionError " num_workers and num_parameter_servers must be > 0.".

(** Exceptions of failed lookups and calls. *)
Definition lookup_exn (e : exn) : Prop :=
  match e with
  | AttributeError _ | KeyError _ | TypeError _ => True
  | _ => False
  end.

(** The exceptions [train] can raise once the cluster has been checked. *)
Definition body_exn (e : exn) : Prop :=
  match e with
  | AssertionError m => m = "" \/ m = "Model diverged with loss = NaN"
  | UnboundLocalError v => v = "format_str" \/ v = "step" \/ v = "weights_from"
  | _ => True
  end.

(** Events of graph construction under the device scopes [devs]. *)
Definition build_event (devs : list device) (e : event) : Prop :=
  match e with
  | EOp d _ | EVariable d _ _ => d = devs
  | _ => False
  end.

Definition is_graph_element (e : event) : bool :=
  match e with
  | EOp _ _ | EVariable _ _ _ | EOptimizer _ => true
  | _ => false
  end.

(** The actions reserved to the chief. *)
Definition is_chief_action (e : event) : bool :=
  match e with
  | EStartQueueRunners true | ERunInitTokens | ESave _ => true
  | _ => false
  end.

(** Events of one epoch. *)
Definition epoch_event (is_chief : bool) (e : event) : Prop :=
  match e with
  | ETrainStep _ | EValStep | ERunCleanUp => True
  | ESave (Some _) => is_chief = true
  | _ => False
  end.

(** Events of lines 186-344. *)
Definition session_event (devs : list device) (is_chief : bool) (target : string)
    (e : event) : Prop :=
  match e with
  | EOp d _ => d = devs
  | ESupervisor c => c = is_chief
  | EPrepareOrWaitForSession t => t = target
  | EStartQueueRunners c => c = true -> is_chief = true
  | ERunInitTokens | ELoadWeights _ | ESave _ | EMkdir => is_chief = true
  | ETrainStep _ | EValStep | ERunCleanUp | ESvStop | ECoordRequestStop | ECoordJoin => True
  | _ => False
  end.

Definition setup_model_loss_kwargs (reuse global_step : pyval) (n : Z)
  : list (string * pyval) :=
  [("reuse", reuse); ("global_step", global_step); ("num_replicas_to_aggregate", VInt n)].

(** Events of [_setup_model_loss]. *)
Definition setup_event (devs : list device) (task_id num_workers : Z)
    (reuse global_step : pyval) (n : Z) (e : event) : Prop :=
  match e with
  | EOp d _ | EVariable d _ _ => d = devs
  | ECall fn kw => fn = "_setup_model_loss" /\ kw = setup_model_loss_kwargs reuse global_step n
  | EOptimizer o =>
      exists name kwargs, o = SyncReplicasOptimizer (BaseOptimizer name kwargs) n task_id num_workers
  | _ => False
  end.

Definition train_devices (task_id : Z) (cluster_spec : gmap string (list string))
  : list device :=
  [ReplicaDeviceSetter cluster_spec; DeviceName ("/job:worker/task:" +:+ fmt_d task_id)].

(** Events of [train_build]. *)
Definition train_build_event (task_id : Z) (target : string)
    (cluster_spec : gmap string (list string)) (num_workers : Z) (e : event) : Prop :=
  match e with
  | ECall _ _ | EOptimizer _ | EVariable _ _ _ =>
      setup_event (train_devices task_id cluster_spec) task_id num_workers VNone VNone (-1) e
  | _ => session_event (train_devices task_id cluster_spec) (task_id =? 0) target e
  end.

Definition train_kwargs (start_epoch : Z) (reuse : pyval) (n : Z) (vars : pyval)
  : list (string * pyval) :=
  [("start_epoch", VInt start_epoch); ("reuse", reuse);
   ("num_replicas_to_aggregate", VInt n); ("variables_to_train", vars)].

(** Events of [train]. *)
Definition train_event (task_id : Z) (target : string)
    (cluster_spec : gmap string (list string)) (kwargs : list (string * pyval))
    (e : event) : Prop :=
  (exists num_workers, train_build_event task_id target cluster_spec num_workers e) \/
  e = ECall "train" kwargs.

Definition train_exn (e : exn) : Prop := body_exn e \/ e = cluster_assertion.

(** Events and exceptions of [fit]. *)
Definition fit_event (task_id : Z) (target : string)
    (cluster_spec : gmap string (list string)) (e : event) : Prop :=
  match e with
  | EExtern _ | EDecoder _ | EDataset _ _ | EDataflow _ => True
  | _ => train_event task_id target cluster_spec (train_kwargs 1 VNone (-1) VNone) e
  end.

Definition fit_exn (e : exn) : Prop :=
  train_exn e \/ e = UnboundLocalError "features_keys".

(** The exceptions [fit] can raise before it calls [train]. *)
Definition prelude_exn (e : exn) : Prop :=
  lookup_exn e \/ e = UnboundLocalError "features_keys".

(** Lines 89-94: what [fit] does before it calls [train]. *)
Definition fit_prelude (env : Env) (datadir : string) : M Dataflow :=
  is_summary <- getattr "is_summary" ;;
  (if truthy is_summary then emit (EExtern "_setup_summaries") else ret tt) ;;;
  dataset_name <- getattr "dataset_name" ;;
  feature_keys <- getattr "feature_keys" ;;
  num_readers <- getattr "num_readers" ;;
  min_queue_examples <- getattr "min_queue_examples" ;;
  capacity <- getattr "capacity" ;;
  dataflow <- _setup_data_ops datadir dataset_name feature_keys num_readers
                min_queue_examples capacity ;;
  _setup_misc env ;;;
  _print_info ;;;
  ret dataflow.

(** [terminates m]: [m] does not depend on the fuel. *)
Definition terminates {A} (m : M A) : Prop := forall st, fst (m st) <> OutOfFuel.


(** Events of the part of [train] that builds the graph. *)
Definition is_build_phase_event (e : event) : bool :=
  match e with
  | ECall _ _ | EOp _ _ | EVariable _ _ _ => true
  | _ => false
  end.

(** Events of the preparation of [fit]. *)
Definition prelude_event (e : event) : Prop :=
  match e with
  | EExtern _ | EDecoder _ | EDataset _ _ | EDataflow _ => True
  | _ => False
  end.










(** What a tensor needs before it yields a value: itself, its inputs and
    its control dependencies, transitively. *)
Fixpoint needs (x : node) : list node :=
  x :: match x with
       | Tensor _ => []
       | AddN _ xs => flat_map needs xs
       | Unpack y _ => needs y
       | NoOp _ control => flat_map needs control
       | WithDependencies deps y => flat_map needs deps ++ needs y
       | CheckNumerics y _ => needs y
       | ComputeGradients _ loss _ _ _ _ => needs loss
       | ClipGradNorms g _ => needs g
       | ClipGradGlobalNorms _ loss _ _ _ _ _ _ => needs loss
       | MultiplyGradients g _ => needs g
       | ApplyGradients _ g global_step => needs g ++ needs global_step
       end.

(** The tensor whose value [x] passes on unchanged. *)
Fixpoint value_of (x : node) : node :=
  match x with
  | WithDependencies _ y => value_of y
  | CheckNumerics y _ => value_of y
  | _ => x
  end.

(** The loss a gradient computation differentiates. *)
Fixpoint loss_of (g : node) : option node :=
  match g with
  | ComputeGradients _ loss _ _ _ _ => Some loss
  | ClipGradGlobalNorms _ loss _ _ _ _ _ _ => Some loss
  | ClipGradNorms g' _ => loss_of g'
  | MultiplyGradients g' _ => loss_of g'
  | _ => None
  end.

Definition count_train_steps (evs : list event) : nat :=
  length (List.filter (fun e => match e with ETrainStep _ => true | _ => false end) evs).

Definition count_val_steps (evs : list event) : nat :=
  length (List.filter (fun e => match e with EValStep => true | _ => false end) evs).

(** [self.cnf.get('max_steps', 10000000)] in a state. *)
Definition max_steps_of (st : St) : option Z :=
  match attrs st !! "cnf" with
  | Some (VDict items) | Some (VCallableDict items) =>
      match assoc "max_steps" items with
      | Some (VInt m) => Some m
      | Some _ => None
      | None => Some 10000000
      end
  | _ => None
  end.

(** The claim about one iteration of the epoch loop, as it is worded: the
    iteration runs exactly [n_iters_per_epoch] training steps, or fewer and
    then the global step of its last training run exceeds [max_steps], and
    exactly [n_val_iters_per_epoch] validation steps. *)
Definition epoch_as_claimed (env : Env) (is_chief : bool) (dataset : Dataset)
    (loc : Locals) (st : St) : Prop :=
  let evs := emitted (try_except (epoch_body env is_chief dataset loc)
                        (epoch_handler env)) st in
  (count_train_steps evs = Z.to_nat (n_iters_per_epoch dataset) \/
   (count_train_steps evs < Z.to_nat (n_iters_per_epoch dataset))%nat /\
   exists m, max_steps_of st = Some m /\
             m < snd (sess_run_train env (n_runs st + count_train_steps evs - 1))) /\
  count_val_steps evs = Z.to_nat (n_val_iters_per_epoch dataset).

(** ** Example inputs *)

Definition example_env : Env :=
  mkEnv (fun k => Nat.leb 2 k) (fun k => (false, Z.of_nat k * 30)) 32 32
        [] ["weights"; "biases"] ["weights"; "biases"] true true true
        (fun model cnf a => <["cnf" := cnf]> (<["model" := model]> a)).

(** An environment whose first training run yields a NaN loss. *)
Definition nan_env : Env :=
  mkEnv (fun k => Nat.leb 2 k) (fun k => (true, 0)) 32 32
        [] ["weights"; "biases"] ["weights"; "biases"] true true true
        (fun model cnf a => <["cnf" := cnf]> (<["model" := model]> a)).

Definition example_attrs : gmap string pyval :=
  list_to_map
    [("cnf", VCallableDict [("TOWER_NAME", VStr "tower")]);
     ("is_summary", VBool false); ("dataset_name", VStr "imagenet");
     ("feature_keys", VNone); ("num_readers", VInt 8);
     ("min_queue_examples", VInt 1000); ("capacity", VInt 2000);
     ("training_end_points", VOpaque "end_points");
     ("lr_policy", VOpaque "lr_policy"); ("model", VOpaque "model");
     ("learning_rate", VOpaque "placeholder"); ("validation_metrics_def", VList []);
     ("validation_predictions", VOpaque "predictions"); ("weights_dir", VStr "weights");
     ("clip_grad_global_norm", VBool false); ("gradient_noise_scale", VNone);
     ("gradient_multipliers", VNone); ("aggregation_method", VNone);
     ("colocate_gradients_with_ops", VBool false)].

Definition example_state : St := mkSt example_attrs [] [] 0 0.

Definition empty_state : St := mkSt ∅ [] [] 0 0.

Definition example_cluster : gmap string (list string) :=
  list_to_map [("worker", ["worker0:2222"; "worker1:2222"]); ("ps", ["ps0:2222"])].

Definition example_dataflow : Dataflow :=
  mkDataflow (VStr "imagenet") default_features_keys "/data" (VInt 8) true
    (VInt 1000) (VInt 2000).




(** ** Reasoning about traces and exceptions *)

(** [sat P E m]: whatever the state, [m] only appends to the trace, every
    event it appends satisfies [P], and every exception it raises
    satisfies [E]. *)
Definition sat {A} (P : event -> Prop) (E : exn -> Prop) (m : M A) : Prop :=
  forall st, exists evs,
    trace (snd (m st)) = trace st ++ evs /\ Forall P evs /\
    forall e, fst (m st) = Raise e -> E e.

Lemma sat_silent {A} (P : event -> Prop) (E : exn -> Prop) (m : M A) :
  (forall st, trace (snd (m st)) = trace st) ->
  (forall st e, fst (m st) = Raise e -> E e) -> sat P E m.
Proof.
  intros H HE st. exists []. rewrite H, app_nil_r.
  split; [reflexivity | split; [constructor | apply HE]].
Qed.

Lemma sat_ret {A} P E (a : A) : sat P E (ret a).
Proof. apply sat_silent; [reflexivity | discriminate]. Qed.

Lemma sat_raise {A} P (E : exn -> Prop) e : E e -> sat P E (@raise A e).
Proof.
  intros H. apply sat_silent; [reflexivity |].
  intros st e' [= <-]. exact H.
Qed.

Lemma sat_out_of_fuel {A} P E : sat P E (@out_of_fuel A).
Proof. apply sat_silent; [reflexivity | discriminate]. Qed.

Lemma sat_getattr P (E : exn -> Prop) name :
  E (AttributeError name) -> sat P E (getattr name).
Proof.
  intros H. apply sat_silent; intros st; unfold getattr;
    destruct (attrs st !! name); simpl; try reflexivity; try discriminate.
  intros e [= <-]. exact H.
Qed.

Lemma sat_setattr P E name v : sat P E (setattr name v).
Proof. apply sat_silent; [reflexivity | discriminate]. Qed.

Lemma sat_add_loss P E x : sat P E (add_loss x).
Proof. apply sat_silent; [reflexivity | discriminate]. Qed.

Lemma sat_get_losses P E : sat P E get_losses.
Proof. apply sat_silent; [reflexivity | discriminate]. Qed.

Lemma sat_emit (P : event -> Prop) E e : P e -> sat P E (emit e).
Proof.
  intros H st. exists [e].
  split; [reflexivity | split; [repeat constructor; exact H | discriminate]].
Qed.

Lemma sat_bind {A B} P E (m : M A) (k : A -> M B) :
  sat P E m -> (forall a, sat P E (k a)) -> sat P E (bind m k).
Proof.
  intros Hm Hk st. unfold bind.
  destruct (Hm st) as (evs1 & H1 & F1 & X1).
  destruct (m st) as [[a | e |] st']; simpl in *.
  - destruct (Hk a st') as (evs2 & H2 & F2 & X2).
    exists (evs1 ++ evs2). rewrite H2, H1, app_assoc.
    split; [reflexivity | split; [| exact X2]].
    apply Forall_app. split; assumption.
  - exists evs1. split; [exact H1 | split; [exact F1 |]].
    intros e0 [= <-]. apply X1. reflexivity.
  - exists evs1. split; [exact H1 | split; [exact F1 | discriminate]].
Qed.

Lemma sat_try_except {A} P E E' (body : M A) handler :
  sat P E body -> (forall e, E e -> sat P E' (handler e)) ->
  sat P E' (try_except body handler).
Proof.
  intros Hm Hk st. unfold try_except.
  destruct (Hm st) as (evs1 & H1 & F1 & X1).
  destruct (body st) as [[a | e |] st']; simpl in *.
  - exists evs1. split; [exact H1 | split; [exact F1 | discriminate]].
  - destruct (Hk e (X1 e eq_refl) st') as (evs2 & H2 & F2 & X2).
    exists (evs1 ++ evs2). rewrite H2, H1, app_assoc.
    split; [reflexivity | split; [| exact X2]].
    apply Forall_app. split; assumption.
  - exists evs1. split; [exact H1 | split; [exact F1 | discriminate]].
Qed.

Lemma sat_impl {A} (P Q : event -> Prop) (E F : exn -> Prop) (m : M A) :
  (forall e, P e -> Q e) -> (forall e, E e -> F e) -> sat P E m -> sat Q F m.
Proof.
  intros HPQ HEF Hm st. destruct (Hm st) as (evs & H & HF & HX).
  exists evs. split; [exact H | split].
  - eapply Forall_impl; [exact HF | exact HPQ].
  - intros e He. apply HEF, HX, He.
Qed.

Lemma sat_emitted {A} P E (m : M A) st : sat P E m -> Forall P (emitted m st).
Proof.
  intros Hm. destruct (Hm st) as (evs & H & F & _). unfold emitted.
  rewrite H, drop_app_length. exact F.
Qed.

Lemma sat_result {A} P E (m : M A) st e : sat P E m -> result m st = Raise e -> E e.
Proof. intros Hm. destruct (Hm st) as (evs & _ & _ & X). apply X. Qed.

Lemma sat_trace {A} P E (m : M A) st :
  sat P E m -> trace (snd (m st)) = trace st ++ emitted m st.
Proof.
  intros Hm. destruct (Hm st) as (evs & H & _ & _). unfold emitted.
  rewrite H, drop_app_length. reflexivity.
Qed.

(** Steps through a computation built from the primitives above; [tac]
    closes the side conditions on events and exceptions and applies the
    lemmas of the functions called. *)
Ltac sat_step tac :=
  first [ apply sat_ret | apply sat_out_of_fuel
        | apply sat_setattr | apply sat_add_loss | apply sat_get_losses
        | apply sat_raise; tac
        | apply sat_getattr; tac
        | apply sat_emit; tac
        | tac
        | apply sat_bind; [| intros ]
        | match goal with
          | |- sat _ _ (if ?b then _ else _) => destruct b
          | |- sat _ _ (match ?x with _ => _ end) => destruct x
          end ].

Ltac sat_auto tac := repeat (sat_step tac).

Ltac triv :=
  solve [ exact I | reflexivity | simpl; auto | simpl; eauto | simpl; intros; congruence ].

(** *** The helpers *)

Section Helpers.

Variable P : event -> Prop.

Lemma sat_dict_get d key default : sat P lookup_exn (dict_get d key default).
Proof. unfold dict_get. sat_auto triv. Qed.

Lemma sat_dict_getitem d key : sat P lookup_exn (dict_getitem d key).
Proof. unfold dict_getitem. sat_auto triv. Qed.

Lemma sat_py_call d : sat P lookup_exn (py_call d).
Proof. unfold py_call. sat_auto triv. Qed.

Lemma sat_cnf_get key default : sat P lookup_exn (cnf_get key default).
Proof. unfold cnf_get. sat_auto ltac:(first [triv | apply sat_dict_get]). Qed.

Lemma bind_positional_exn fname params args e :
  bind_positional fname params args = Raise e -> lookup_exn e.
Proof.
  revert params. induction args as [| a args IH]; intros [| p params]; simpl;
    try discriminate.
  - intros [= <-]. exact I.
  - destruct (bind_positional fname params args) eqn:Hb; try discriminate.
    intros [= <-]. eapply IH. exact Hb.
Qed.

Lemma bind_keywords_exn fname params keywords : forall bound e,
  bind_keywords fname params bound keywords = Raise e -> lookup_exn e.
Proof.
  induction keywords as [| [k v] rest IH]; intros bound e; simpl; try discriminate.
  destruct (negb (existsb (String.eqb k) params)).
  - intros [= <-]. exact I.
  - destruct (existsb (String.eqb k) (map fst bound)).
    + intros [= <-]. exact I.
    + apply IH.
Qed.

Lemma sat_bind_args fname params defaults positional keywords :
  sat P lookup_exn (bind_args fname params defaults positional keywords).
Proof.
  unfold bind_args.
  destruct (bind_positional fname params positional) as [b | e |] eqn:Hp.
  - destruct (bind_keywords fname params b keywords) as [b' | e |] eqn:Hk.
    + sat_auto triv.
    + apply sat_raise. eapply bind_keywords_exn. exact Hk.
    + apply sat_out_of_fuel.
  - apply sat_raise. eapply bind_positional_exn. exact Hp.
  - apply sat_out_of_fuel.
Qed.

Lemma sat_cluster_job cluster_spec job : sat P lookup_exn (cluster_job cluster_spec job).
Proof. unfold cluster_job. sat_auto triv. Qed.

Lemma sat_fmt_d_val v : sat P lookup_exn (fmt_d_val v).
Proof. unfold fmt_d_val. sat_auto triv. Qed.

End Helpers.

Ltac lookups :=
  first [ triv
        | apply sat_cnf_get | apply sat_dict_get | apply sat_dict_getitem
        | apply sat_py_call | apply sat_bind_args | apply sat_cluster_job
        | apply sat_fmt_d_val ].

(** *** Graph construction *)

Section Build.

Variable env : Env.
Variable devs : list device.

Lemma sat_unpack1 P t : sat P lookup_exn (unpack1 env t).
Proof. unfold unpack1. sat_auto triv. Qed.

Lemma sat_unpack2 P r : sat P lookup_exn (unpack2 env r).
Proof. unfold unpack2. sat_auto triv. Qed.

Lemma sat_loss kind is_training :
  sat (build_event devs) lookup_exn (_loss devs kind is_training).
Proof. unfold _loss. sat_auto lookups. Qed.

Lemma sat_call_model reuse : sat (build_event devs) lookup_exn (call_model env devs reuse).
Proof.
  unfold call_model. sat_auto lookups.
  induction (model_variables env) as [| v vs IH]; simpl; sat_auto lookups.
Qed.

Lemma sat_tower_summaries ls :
  sat (build_event devs) lookup_exn (tower_summaries devs ls).
Proof. induction ls as [| l ls IH]; simpl; sat_auto lookups. Qed.

Lemma sat_tower_loss scope model images labels is_training resue is_classification :
  sat (build_event devs) lookup_exn
    (_tower_loss env devs scope model images labels is_training resue is_classification).
Proof.
  unfold _tower_loss, _loss_softmax, _loss_regression.
  sat_auto ltac:(first [ lookups | apply sat_call_model | apply sat_loss
                       | apply sat_unpack1 | apply sat_tower_summaries ]).
Qed.

Lemma sat_setup_model_loss_optimizer losses total_loss is_chief task_id num_workers
    global_step n reuse :
  sat (setup_event devs task_id num_workers reuse global_step n) lookup_exn
    (_setup_model_loss_optimizer devs losses total_loss is_chief task_id num_workers
       global_step n).
Proof. unfold _setup_model_loss_optimizer. sat_auto lookups. Qed.

Lemma build_setup_event task_id num_workers reuse global_step n e :
  build_event devs e -> setup_event devs task_id num_workers reuse global_step n e.
Proof. destruct e; simpl; tauto. Qed.

Lemma sat_setup_model_loss inputs labels vinputs vlabels is_chief task_id num_workers
    is_training scope initial_lr reuse global_step n :
  sat (setup_event devs task_id num_workers reuse global_step n) lookup_exn
    (_setup_model_loss env devs inputs labels vinputs vlabels is_chief task_id num_workers
       is_training scope initial_lr reuse global_step n).
Proof.
  unfold _setup_model_loss.
  sat_auto ltac:(first
    [ lookups | apply sat_unpack2 | apply sat_setup_model_loss_optimizer
    | eapply sat_impl; [apply build_setup_event | intros ? H; exact H | apply sat_tower_loss] ]).
Qed.

End Build.

Lemma lookup_body_exn e : lookup_exn e -> body_exn e.
Proof. destruct e; simpl; tauto. Qed.

Lemma sat_weaken {A} (P Q : event -> Prop) (m : M A) :
  (forall e, P e -> Q e) -> sat P lookup_exn m -> sat Q body_exn m.
Proof. intros H. apply sat_impl; [exact H | exact lookup_body_exn]. Qed.

Ltac lookups_body :=
  first [ triv
        | apply sat_weaken with (P := fun _ => False); [intros ? [] |];
          first [ apply sat_cnf_get | apply sat_dict_get | apply sat_dict_getitem
                | apply sat_py_call | apply sat_bind_args | apply sat_cluster_job
                | apply sat_fmt_d_val ] ].

(** *** The training operation and the loop *)

Section Loop.

Variable env : Env.

Lemma sat_create_train_op devs total_loss opt global_step update_ops variables_to_train
    clip noise multipliers gate aggregation colocate :
  sat (build_event devs) body_exn
    (create_train_op env devs total_loss opt global_step update_ops variables_to_train
       clip noise multipliers gate aggregation colocate).
Proof. unfold create_train_op, py_assert. sat_auto lookups_body. Qed.

Lemma sat_np_average P count weight : sat P body_exn (np_average count weight).
Proof. unfold np_average. sat_auto triv. Qed.

Lemma sat_run_train_op (P : event -> Prop) E :
  (forall k, P (ETrainStep k)) -> sat P E (run_train_op env).
Proof.
  intros H st. exists [ETrainStep (n_runs st)].
  split; [reflexivity | split; [repeat constructor; apply H | discriminate]].
Qed.

Lemma sat_sv_should_stop P E : sat P E (sv_should_stop env).
Proof. apply sat_silent; [reflexivity | discriminate]. Qed.

Lemma sat_train_iterations is_chief n : forall done loc,
  sat (epoch_event is_chief) body_exn (train_iterations env n done loc).
Proof.
  induction n as [| n IH]; intros done loc; simpl; unfold py_assert;
    sat_auto ltac:(first [ lookups_body | apply sat_run_train_op; intros; exact I | apply IH ]).
Qed.

Lemma sat_validation_iterations is_chief n :
  sat (epoch_event is_chief) body_exn (validation_iterations n).
Proof.
  induction n as [| n IH]; simpl; unfold validation_metrics;
    sat_auto ltac:(first [ lookups_body | exact IH ]).
Qed.

Lemma sat_epoch_body is_chief dataset loc :
  sat (epoch_event is_chief) body_exn (epoch_body env is_chief dataset loc).
Proof.
  unfold epoch_body.
  sat_auto ltac:(first [ lookups_body | apply sat_train_iterations | apply sat_np_average
                       | apply sat_validation_iterations ]).
Qed.

Lemma sat_epoch_handler {A} is_chief e :
  body_exn e -> sat (epoch_event is_chief) body_exn (@epoch_handler env A e).
Proof. intros He. unfold epoch_handler. sat_auto triv. Qed.

Lemma sat_epoch_loop is_chief dataset fuel : forall loc,
  sat (epoch_event is_chief) body_exn (epoch_loop env fuel is_chief dataset loc).
Proof.
  induction fuel as [| fuel IH]; intros loc; simpl.
  - apply sat_out_of_fuel.
  - apply sat_bind; [apply sat_sv_should_stop |]. intros [|]; [apply sat_ret |].
    apply sat_bind; [| intros; apply IH].
    eapply sat_try_except; [apply sat_epoch_body |].
    intros e He. apply sat_epoch_handler. exact He.
Qed.

Lemma epoch_session_event devs is_chief target e :
  epoch_event is_chief e -> session_event devs is_chief target e.
Proof. destruct e as [| | | | | | | | | | | [s |] | | | | | | | | |]; simpl; tauto. Qed.

Lemma sat_chief_init devs is_chief target start_epoch :
  sat (session_event devs is_chief target) body_exn (chief_init is_chief start_epoch).
Proof. unfold chief_init. sat_auto triv. Qed.

Lemma sat_train_finish devs is_chief target :
  sat (session_event devs is_chief target) body_exn (train_finish env is_chief).
Proof. unfold train_finish. sat_auto triv. Qed.

Lemma sat_train_session fuel devs is_chief target dataset start_epoch :
  sat (session_event devs is_chief target) body_exn
    (train_session env fuel devs is_chief target dataset start_epoch).
Proof.
  unfold train_session.
  sat_auto ltac:(first
    [ lookups_body | apply sat_chief_init | apply sat_train_finish
    | eapply sat_impl; [apply epoch_session_event | intros ? H; exact H | apply sat_epoch_loop] ]).
Qed.

Lemma sat_batch_inputs devs key descr :
  sat (build_event devs) body_exn (batch_inputs devs key descr).
Proof. unfold batch_inputs. sat_auto lookups_body. Qed.

Lemma build_train_event task_id target cluster_spec num_workers e :
  build_event (train_devices task_id cluster_spec) e ->
  train_build_event task_id target cluster_spec num_workers e.
Proof. destruct e; simpl; tauto. Qed.

Lemma setup_train_event task_id target cluster_spec num_workers e :
  setup_event (train_devices task_id cluster_spec) task_id num_workers VNone VNone (-1) e ->
  train_build_event task_id target cluster_spec num_workers e.
Proof. destruct e; simpl; tauto. Qed.

Lemma session_train_event task_id target cluster_spec num_workers e :
  session_event (train_devices task_id cluster_spec) (task_id =? 0) target e ->
  train_build_event task_id target cluster_spec num_workers e.
Proof. destruct e; simpl; tauto. Qed.

End Loop.

Ltac train_build_steps :=
  sat_auto ltac:(first
    [ lookups_body
    | eapply sat_impl; [apply build_train_event | intros ? H; exact H | apply sat_batch_inputs]
    | eapply sat_impl; [apply build_train_event | intros ? H; exact H | apply sat_create_train_op]
    | eapply sat_impl; [apply setup_train_event | apply lookup_body_exn | apply sat_setup_model_loss]
    | eapply sat_impl; [apply session_train_event | intros ? H; exact H | apply sat_train_session] ]).

Lemma sat_train_build env fuel task_id target dataset cluster_spec num_workers is_training
    start_epoch :
  sat (train_build_event task_id target cluster_spec num_workers) body_exn
    (train_build env fuel task_id target dataset cluster_spec num_workers is_training
       start_epoch).
Proof.
  unfold train_build. fold (train_devices task_id cluster_spec). train_build_steps.
Qed.

(** *** [train] and [fit] *)

Section TrainFit.

Variable env : Env.

Lemma sat_train fuel task_id target dataset dataflow cluster_spec is_training start_epoch
    reuse n vars :
  sat (train_event task_id target cluster_spec (train_kwargs start_epoch reuse n vars))
    train_exn
    (train env fuel task_id target dataset dataflow cluster_spec is_training start_epoch
       reuse n vars).
Proof.
  unfold train, py_assert.
  sat_auto ltac:(first
    [ solve [right; reflexivity]
    | apply sat_impl with (P := fun _ => False) (E := lookup_exn);
        [intros ? [] | intros ? H; left; apply lookup_body_exn, H | apply sat_cluster_job]
    | eapply sat_impl; [ | | apply sat_train_build ];
        [intros ? H; left; eexists; exact H | intros ? H; left; exact H] ]).
Qed.

Lemma sat_setup_data_ops datadir dataset_name feature_keys num_readers mq capacity
    task_id target cluster_spec :
  sat (fit_event task_id target cluster_spec) fit_exn
    (_setup_data_ops datadir dataset_name feature_keys num_readers mq capacity).
Proof. unfold _setup_data_ops. sat_auto ltac:(first [triv | solve [right; reflexivity]]). Qed.

Lemma train_fit_event task_id target cluster_spec e :
  train_event task_id target cluster_spec (train_kwargs 1 VNone (-1) VNone) e ->
  fit_event task_id target cluster_spec e.
Proof.
  intros H. destruct e; simpl; try exact H; exact I.
Qed.

Lemma lookup_fit_exn e : lookup_exn e -> fit_exn e.
Proof. intros H. left. left. apply lookup_body_exn, H. Qed.

Ltac lookups_fit :=
  first [ triv
        | solve [apply lookup_fit_exn; exact I]
        | apply sat_impl with (P := fun _ => False) (E := lookup_exn);
            [intros ? [] | apply lookup_fit_exn |];
          first [ apply sat_cnf_get | apply sat_fmt_d_val ] ].

Lemma sat_setup_misc task_id target cluster_spec :
  sat (fit_event task_id target cluster_spec) fit_exn (_setup_misc env).
Proof. unfold _setup_misc. sat_auto lookups_fit. Qed.

Lemma sat_print_info task_id target cluster_spec :
  sat (fit_event task_id target cluster_spec) fit_exn _print_info.
Proof. unfold _print_info. sat_auto lookups_fit. Qed.

Lemma sat_fit fuel task_id target dataset datadir cluster_spec is_training start_epoch
    reuse n vars :
  sat (fit_event task_id target cluster_spec) fit_exn
    (fit env fuel task_id target dataset datadir cluster_spec is_training start_epoch
       reuse n vars).
Proof.
  unfold fit.
  sat_auto ltac:(first
    [ lookups_fit | apply sat_setup_data_ops | apply sat_setup_misc | apply sat_print_info
    | eapply sat_impl; [apply train_fit_event | intros ? H; left; exact H | apply sat_train] ]).
Qed.

End TrainFit.

(** ** The constructor and the data pipeline *)

(** C8: a trainer on which [cnf] is not yet set cannot be constructed: the
    constructor raises [AttributeError] at its first read of [self.cnf],
    after the five assignments of lines 55-59 and before any other
    assignment, and the base-class initializer is not called. *)
Theorem init_raises_without_cnf env model cnf clip noise multipliers aggregation colocate st :
  attrs st !! "cnf" = None ->
  let m := __init__ env model cnf clip noise multipliers aggregation colocate in
  result m st = Raise (AttributeError "cnf") /\
  is_AttributeError (AttributeError "cnf") = true /\
  attrs (snd (m st)) =
    <["colocate_gradients_with_ops" := colocate]> (<["aggregation_method" := aggregation]>
      (<["gradient_multipliers" := multipliers]> (<["gradient_noise_scale" := noise]>
        (<["clip_by_global_norm" := clip]> (attrs st))))) /\
  emitted m st = [].
Proof.
  intros H m.
  assert (Hl : (<["colocate_gradients_with_ops" := colocate]>
      (<["aggregation_method" := aggregation]>
      (<["gradient_multipliers" := multipliers]> (<["gradient_noise_scale" := noise]>
        (<["clip_by_global_norm" := clip]> (attrs st)))))) !! "cnf" = None).
  { rewrite !lookup_insert_ne by done. exact H. }
  subst m. unfold result, emitted, __init__, cnf_get, bind, setattr, getattr. simpl.
  rewrite Hl. simpl. rewrite drop_all. auto.
Qed.

Lemma init_raises_without_cnf_witness :
  attrs empty_state !! "cnf" = None /\
  result (__init__ example_env (VOpaque "model") (VDict []) (VBool false) VNone VNone VNone
            (VBool false)) empty_state = Raise (AttributeError "cnf").
Proof.
  split; [reflexivity |].
  apply (init_raises_without_cnf example_env (VOpaque "model") (VDict []) (VBool false)
           VNone VNone VNone (VBool false) empty_state).
  reflexivity.
Defined.

(** C9: with [feature_keys] not [None], [_setup_data_ops] raises
    [UnboundLocalError] (a [NameError]) for [features_keys] before it builds
    anything; whatever the arguments, a decoder or dataflow it builds uses
    the three default keys, and it returns only when [feature_keys] is
    [None]. *)
Theorem setup_data_ops_feature_keys datadir dataset_name feature_keys num_readers
    min_queue_examples capacity st :
  let m := _setup_data_ops datadir dataset_name feature_keys num_readers
             min_queue_examples capacity in
  (feature_keys <> VNone ->
     result m st = Raise (UnboundLocalError "features_keys") /\
     is_NameError (UnboundLocalError "features_keys") = true /\
     emitted m st = []) /\
  Forall (fun e => match e with
                   | EDecoder keys => keys = default_features_keys
                   | EDataflow d => df_decoder_keys d = default_features_keys
                   | _ => True
                   end) (emitted m st) /\
  (forall d, result m st = Ok d ->
     df_decoder_keys d = default_features_keys /\ feature_keys = VNone).
Proof.
  intros m. subst m. unfold result, emitted, _setup_data_ops, bind, emit, ret, raise.
  destruct (is_None feature_keys) eqn:Hn; simpl.
  - assert (feature_keys = VNone) as -> by (destruct feature_keys; simpl in Hn; congruence).
    rewrite <- !app_assoc, drop_app_length. simpl.
    split; [congruence | split].
    + repeat constructor.
    + intros d [= <-]. split; reflexivity.
  - rewrite drop_all. split; [auto | split; [constructor | discriminate]].
Qed.

Lemma setup_data_ops_feature_keys_witness :
  VDict [("image", VOpaque "FixedLenFeature")] <> VNone /\
  result (_setup_data_ops "/data" (VStr "imagenet")
            (VDict [("image", VOpaque "FixedLenFeature")]) (VInt 8) (VInt 1000) (VInt 2000))
    example_state = Raise (UnboundLocalError "features_keys").
Proof.
  split; [discriminate |].
  apply (setup_data_ops_feature_keys "/data" (VStr "imagenet")
           (VDict [("image", VOpaque "FixedLenFeature")]) (VInt 8) (VInt 1000) (VInt 2000)
           example_state).
  discriminate.
Defined.

(** ** The cluster check *)

Lemma emitted_emit_bind {B} P E e (k : unit -> M B) st :
  sat P E (k tt) ->
  emitted (bind (emit e) k) st = e :: emitted (k tt) (snd (emit e st)) /\
  result (bind (emit e) k) st = result (k tt) (snd (emit e st)).
Proof.
  intros Hk. unfold emitted, result, bind. simpl.
  destruct (Hk (snd (emit e st))) as (evs & H & _ & _). simpl in H.
  rewrite H, (drop_app_length (trace st ++ [e]) evs), <- app_assoc,
    (drop_app_length (trace st)).
  split; reflexivity.
Qed.

Section Cluster.

Variable env : Env.
Variables (fuel : nat) (task_id : Z) (target : string) (dataset : Dataset)
  (dataflow : Dataflow) (cluster_spec : gmap string (list string)) (is_training : pyval)
  (start_epoch : Z) (reuse : pyval) (n : Z) (vars : pyval).

Let call := ECall "train" (train_kwargs start_epoch reuse n vars).

Let entered (st : St) : St :=
  mkSt (attrs st) (trace st ++ [call]) (losses_collection st) (n_runs st) (n_stop st).


Lemma train_empty_job st ws ps :
  cluster_spec !! "worker" = Some ws -> cluster_spec !! "ps" = Some ps ->
  ws = [] \/ ps = [] ->
  train env fuel task_id target dataset dataflow cluster_spec is_training start_epoch
    reuse n vars st
  = (Raise cluster_assertion, entered st).
Proof.
  unfold train, bind, emit, cluster_job. simpl. intros -> -> [-> | ->]; simpl.
  - reflexivity.
  - rewrite andb_false_r. reflexivity.
Qed.

Lemma train_checked st ws ps :
  cluster_spec !! "worker" = Some ws -> cluster_spec !! "ps" = Some ps ->
  ws <> [] -> ps <> [] ->
  train env fuel task_id target dataset dataflow cluster_spec is_training start_epoch
    reuse n vars st
  = train_build env fuel task_id target dataset cluster_spec (Z.of_nat (length ws))
      is_training start_epoch (entered st).
Proof.
  unfold train, bind, emit, cluster_job. simpl. intros -> -> Hw Hp. simpl.
  destruct ws; [congruence |]. destruct ps; [congruence |]. reflexivity.
Qed.

Lemma emitted_entered {A} (m : M A) (m' : M A) P E st :
  m st = m' (entered st) -> sat P E m' ->
  emitted m st = call :: emitted m' (entered st).
Proof.
  intros Heq Hm'. unfold emitted. rewrite Heq.
  destruct (Hm' (entered st)) as (evs & H & _ & _). rewrite H.
  simpl. rewrite (drop_app_length (trace st ++ [call]) evs), <- app_assoc,
    (drop_app_length (trace st)). reflexivity.
Qed.

End Cluster.

Lemma body_exn_not_cluster_assertion e : body_exn e -> e <> cluster_assertion.
Proof. intros H ->. simpl in H. destruct H; discriminate. Qed.

Lemma train_checked_starts env fuel task_id target dataset dataflow cluster_spec is_training
    start_epoch reuse n vars ws ps st :
  cluster_spec !! "worker" = Some ws ->
  cluster_spec !! "ps" = Some ps ->
  ws <> [] -> ps <> [] ->
  let m := train env fuel task_id target dataset dataflow cluster_spec is_training
             start_epoch reuse n vars in
  result m st <> Raise cluster_assertion /\
  exists rest,
    emitted m st =
      ECall "train" (train_kwargs start_epoch reuse n vars)
      :: EVariable (train_devices task_id cluster_spec) "global_step" false :: rest.
Proof.
  intros Hw Hp Hnw Hnp m.
  pose proof (train_checked env fuel task_id target dataset dataflow cluster_spec
                is_training start_epoch reuse n vars st ws ps Hw Hp Hnw Hnp) as Heq.
  pose proof (sat_train_build env fuel task_id target dataset cluster_spec
                (Z.of_nat (length ws)) is_training start_epoch) as Hsat.
  split.
  - subst m. unfold result. rewrite Heq. intros Hr.
    apply (body_exn_not_cluster_assertion cluster_assertion); [| reflexivity].
    eapply sat_result; [exact Hsat | exact Hr].
  - subst m. erewrite emitted_entered; [| exact Heq | exact Hsat].
    unfold train_build. fold (train_devices task_id cluster_spec).
    match goal with
    | |- context [emitted (bind (emit ?e) ?k) ?s] =>
        destruct (emitted_emit_bind
                    (train_build_event task_id target cluster_spec (Z.of_nat (length ws)))
                    body_exn e k s) as [He _]
    end.
    + cbv beta. train_build_steps.
    + rewrite He. eexists. reflexivity.
Qed.

(** C5: when the worker list or the parameter-server list of the cluster is
    empty, [train] raises the [AssertionError] of line 157 having built no
    graph element; when both are non-empty the assertion passes: [train]
    goes on to create the [global_step] variable and never raises that
    [AssertionError]. *)
Theorem train_requires_workers_and_parameter_servers env fuel task_id target dataset
    dataflow cluster_spec is_training start_epoch reuse n vars ws ps st :
  cluster_spec !! "worker" = Some ws ->
  cluster_spec !! "ps" = Some ps ->
  let m := train env fuel task_id target dataset dataflow cluster_spec is_training
             start_epoch reuse n vars in
  (ws = [] \/ ps = [] ->
     result m st = Raise cluster_assertion /\
     emitted m st = [ECall "train" (train_kwargs start_epoch reuse n vars)] /\
     forallb (fun e => negb (is_graph_element e)) (emitted m st) = true) /\
  (ws <> [] /\ ps <> [] ->
     result m st <> Raise cluster_assertion /\
     exists rest,
       emitted m st =
         ECall "train" (train_kwargs start_epoch reuse n vars)
         :: EVariable (train_devices task_id cluster_spec) "global_step" false :: rest).
Proof.
  intros Hw Hp m. split.
  - intros Hempty. subst m. unfold result, emitted.
    rewrite (train_empty_job env fuel task_id target dataset dataflow cluster_spec
               is_training start_epoch reuse n vars st ws ps Hw Hp Hempty).
    simpl. rewrite drop_app_length. auto.
  - intros [Hnw Hnp]. apply train_checked_starts with (ws := ws) (ps := ps); assumption.
Qed.

Lemma train_requires_workers_and_parameter_servers_witness :
  example_cluster !! "worker" = Some ["worker0:2222"; "worker1:2222"] /\
  example_cluster !! "ps" = Some ["ps0:2222"] /\
  result (train example_env 3 1 "grpc://worker1" (mkDataset 2 1) example_dataflow
            example_cluster (VBool true) 1 VNone (-1) VNone) example_state
  <> Raise cluster_assertion.
Proof.
  split; [reflexivity | split; [reflexivity |]].
  apply (train_requires_workers_and_parameter_servers example_env 3 1 "grpc://worker1"
           (mkDataset 2 1) example_dataflow example_cluster (VBool true) 1 VNone (-1) VNone
           ["worker0:2222"; "worker1:2222"] ["ps0:2222"] example_state);
    [reflexivity | reflexivity | split; discriminate].
Defined.

(** ** What [train] builds and who does what *)

Lemma Forall_emitted_train env fuel task_id target dataset dataflow cluster_spec is_training
    start_epoch reuse n vars st :
  Forall (train_event task_id target cluster_spec (train_kwargs start_epoch reuse n vars))
    (emitted (train env fuel task_id target dataset dataflow cluster_spec is_training
                start_epoch reuse n vars) st).
Proof. eapply sat_emitted. apply sat_train. Qed.

(** C1: on a cluster of two workers and one parameter server, worker 1
    calls [train] with the default [num_replicas_to_aggregate = -1]: [train]
    hands the literal [-1] to [_setup_model_loss], which raises [TypeError]
    at its second call of [_tower_loss] (keyword [reuse] for the parameter
    [resue]) before any optimizer exists; and the block that builds the
    optimizer, given what [train] passes, sets [replicas_to_aggregate] to
    [-1], not to the two workers. *)
Theorem train_does_not_aggregate_all_workers :
  let m := train example_env 3 1 "grpc://worker1" (mkDataset 2 1) example_dataflow
             example_cluster (VBool true) 1 VNone (-1) VNone in
  example_cluster !! "worker" = Some ["worker0:2222"; "worker1:2222"] /\
  In (ECall "_setup_model_loss" (setup_model_loss_kwargs VNone VNone (-1)))
     (emitted m example_state) /\
  result m example_state =
    Raise (TypeError "_tower_loss() got an unexpected keyword argument 'reuse'") /\
  forallb (fun e => match e with EOptimizer _ => false | _ => true end)
    (emitted m example_state) = true /\
  emitted (_setup_model_loss_optimizer (train_devices 1 example_cluster) []
             (Tensor "total_loss") false 1 2 VNone (-1)) example_state =
    [EOp (train_devices 1 example_cluster) "ExponentialMovingAverage";
     EOptimizer (SyncReplicasOptimizer
                   (BaseOptimizer (VStr "momentum") (VDict [("decay", VFloat "0.9")]))
                   (-1) 1 2)].
Proof.
  cbv zeta. split; [reflexivity |]. split; [vm_compute; tauto |].
  split; [vm_compute; reflexivity |]. split; vm_compute; reflexivity.
Qed.

(** C2: a worker is chief exactly when its task id is 0 (the flag [train]
    hands to the supervisor is [task_id == 0]); a worker whose task id is
    not 0 never starts the chief queue runners, never runs the init-tokens
    operation and never saves a checkpoint, neither per epoch nor at the
    end: this holds of [train] and of its session part (lines 186-344) run
    from any state. *)
Theorem only_the_chief_initializes_and_saves env fuel task_id target dataset dataflow
    cluster_spec is_training start_epoch reuse n vars st st' :
  let m := train env fuel task_id target dataset dataflow cluster_spec is_training
             start_epoch reuse n vars in
  let s := train_session env fuel (train_devices task_id cluster_spec) (task_id =? 0)
             target dataset start_epoch in
  ((task_id =? 0) = true <-> task_id = 0) /\
  Forall (fun e => forall c, e = ESupervisor c -> c = (task_id =? 0))
    (emitted m st ++ emitted s st') /\
  (task_id <> 0 ->
     forallb (fun e => negb (is_chief_action e)) (emitted m st ++ emitted s st') = true).
Proof.
  intros m s.
  assert (Hs : Forall (session_event (train_devices task_id cluster_spec) (task_id =? 0) target)
                 (emitted s st')).
  { eapply sat_emitted. apply sat_train_session. }
  assert (Hm : Forall (fun e => e = ECall "train" (train_kwargs start_epoch reuse n vars) \/
                                (exists a b, e = ECall a b) \/ (exists o, e = EOptimizer o) \/
                                (exists a b c, e = EVariable a b c) \/
                                session_event (train_devices task_id cluster_spec)
                                  (task_id =? 0) target e)
                 (emitted m st)).
  { eapply Forall_impl; [apply Forall_emitted_train |].
    intros e [[nw H] | ->]; [| left; reflexivity].
    right. destruct e; simpl in H; eauto 10. }
  split; [apply Z.eqb_eq | split].
  - apply Forall_app. split.
    + eapply Forall_impl; [exact Hm |].
      intros e [-> | [(a & b & ->) | [(o & ->) | [(a & b & c & ->) | H]]]] c0 Hc;
        try discriminate.
      subst e. exact H.
    + eapply Forall_impl; [exact Hs |]. intros e H c ->. exact H.
  - intros Hne. assert (Hf : (task_id =? 0) = false) by (apply Z.eqb_neq; exact Hne).
    rewrite forallb_app. apply andb_true_iff. split; apply forallb_forall; intros e He.
    + rewrite Forall_forall in Hm. apply list_elem_of_In, Hm in He.
      destruct He as [-> | [(a & b & ->) | [(o & ->) | [(a & b & c & ->) | H]]]];
        try reflexivity.
      rewrite Hf in H.
      destruct e as [| | | | | | [|] | | | | | | | | | | | | | |]; simpl in *;
        try reflexivity; try discriminate; try (specialize (H eq_refl); discriminate).
    + rewrite Forall_forall in Hs. apply list_elem_of_In, Hs in He.
      rewrite Hf in He.
      destruct e as [| | | | | | [|] | | | | | | | | | | | | | |]; simpl in *;
        try reflexivity; try discriminate; try (specialize (He eq_refl); discriminate).
Qed.

Lemma only_the_chief_initializes_and_saves_witness :
  1 <> 0 /\
  forallb (fun e => negb (is_chief_action e))
    (emitted (train example_env 3 1 "grpc://worker1" (mkDataset 2 1) example_dataflow
                example_cluster (VBool true) 1 VNone (-1) VNone) example_state ++
     emitted (train_session example_env 3 (train_devices 1 example_cluster) (1 =? 0)
                "grpc://worker1" (mkDataset 2 1) 1) example_state) = true.
Proof.
  split; [lia |].
  apply (only_the_chief_initializes_and_saves example_env 3 1 "grpc://worker1"
           (mkDataset 2 1) example_dataflow example_cluster (VBool true) 1 VNone (-1) VNone
           example_state example_state).
  lia.
Defined.



(** ** The training operation *)

Lemma needs_self x : In x (needs x).
Proof. destruct x; simpl; left; reflexivity. Qed.

Lemma loss_of_needs g loss : loss_of g = Some loss -> In loss (needs g).
Proof.
  induction g; simpl; try discriminate.
  - intros [= ->]. right. apply needs_self.
  - intros H. right. apply IHg. exact H.
  - intros [= ->]. right. apply needs_self.
  - intros H. right. apply IHg. exact H.
Qed.

(** C6: a tensor returned by [create_train_op] is the loss, checked for
    NaN and infinity, behind a control dependency on the optimizer's
    [apply_gradients] operation over the gradients of that loss; it yields
    the value of [total_loss], and yielding it needs the gradient update
    and, before that, the loss. *)
Theorem create_train_op_applies_gradients env devs total_loss opt global_step update_ops
    variables_to_train clip noise multipliers gate aggregation colocate st t st' :
  create_train_op env devs total_loss opt global_step update_ops variables_to_train
    clip noise multipliers gate aggregation colocate st = (Ok t, st') ->
  exists loss grads step,
    t = WithDependencies [ApplyGradients opt grads step]
          (CheckNumerics loss "LossTensor is inf or nan") /\
    (loss = total_loss \/
     exists ops, loss = WithDependencies [NoOp "update_barrier" ops] total_loss) /\
    loss_of grads = Some loss /\
    value_of t = value_of total_loss /\
    In (ApplyGradients opt grads step) (needs t) /\
    In loss (needs (ApplyGradients opt grads step)).
Proof.
  unfold create_train_op, py_assert.
  set (uo := match update_ops with
             | Some l => remove_dups l
             | None => remove_dups (update_ops_collection env)
             end).
  set (loss := match uo with
               | [] => total_loss
               | _ => WithDependencies [NoOp "update_barrier" (map Tensor uo)] total_loss
               end).
  assert (Hloss : loss = total_loss \/
                  exists ops, loss = WithDependencies [NoOp "update_barrier" ops] total_loss).
  { subst loss. destruct uo; [left; reflexivity | right; eexists; reflexivity]. }
  assert (Hval : value_of loss = value_of total_loss).
  { destruct Hloss as [-> | [ops ->]]; reflexivity. }
  intros H.
  assert (exists grads step,
            t = WithDependencies [ApplyGradients opt grads step]
                  (CheckNumerics loss "LossTensor is inf or nan") /\
            loss_of grads = Some loss) as (grads & step & -> & Hg).
  { clear Hloss Hval. unfold bind, emit, ret, raise in H.
    destruct global_step; destruct variables_to_train as [l |]; simpl in H;
      repeat match type of H with
             | context [if ?b then _ else _] => destruct b; simpl in H
             | context [match ?x with _ => _ end] => destruct x; simpl in H
             end;
      try discriminate; injection H as <- _;
      eexists; eexists; (split; [reflexivity | reflexivity]). }
  exists loss, grads, step.
  split; [reflexivity |]. split; [exact Hloss |]. split; [exact Hg |].
  split; [exact Hval |]. split.
  - simpl. right. left. reflexivity.
  - simpl. right. apply in_or_app. left. apply loss_of_needs, Hg.
Qed.

Lemma create_train_op_applies_gradients_witness :
  let opt := BaseOptimizer (VStr "momentum") (VDict []) in
  let t := WithDependencies
             [ApplyGradients opt
                (ClipGradNorms
                   (ComputeGradients opt (Tensor "total_loss") ["weights"; "biases"]
                      "GATE_OP" VNone (VBool false)) 8)
                (Tensor "global_step")]
             (CheckNumerics (Tensor "total_loss") "LossTensor is inf or nan") in
  result (create_train_op example_env [] (Tensor "total_loss") opt
            (Some (Tensor "global_step")) None None (VBool false) VNone VNone "GATE_OP"
            VNone (VBool false)) example_state = Ok t /\
  exists loss grads step,
    t = WithDependencies [ApplyGradients opt grads step]
          (CheckNumerics loss "LossTensor is inf or nan") /\
    (loss = Tensor "total_loss" \/
     exists ops, loss = WithDependencies [NoOp "update_barrier" ops] (Tensor "total_loss")) /\
    loss_of grads = Some loss /\
    value_of t = value_of (Tensor "total_loss") /\
    In (ApplyGradients opt grads step) (needs t) /\
    In loss (needs (ApplyGradients opt grads step)).
Proof.
  intros opt t. split; [reflexivity |].
  apply (create_train_op_applies_gradients example_env [] (Tensor "total_loss") opt
           (Some (Tensor "global_step")) None None (VBool false) VNone VNone "GATE_OP"
           VNone (VBool false) example_state t
           (mkSt example_attrs [EOp [] "apply_gradients"; EOp [] "train_op"] [] 0 0)).
  reflexivity.
Defined.

(** ** One epoch *)

Lemma bind_ok {A B} (m : M A) (k : A -> M B) st b st' :
  bind m k st = (Ok b, st') -> exists a st1, m st = (Ok a, st1) /\ k a st1 = (Ok b, st').
Proof.
  unfold bind. destruct (m st) as [[a | e |] st1]; try discriminate.
  intros H. exists a, st1. split; [reflexivity | exact H].
Qed.

Lemma getattr_ok name st v st' :
  getattr name st = (Ok v, st') -> st' = st /\ attrs st !! name = Some v.
Proof.
  unfold getattr. destruct (attrs st !! name); intros H; inversion H; subst.
  split; reflexivity.
Qed.

Lemma dict_get_ok d key default st v st' :
  dict_get d key default st = (Ok v, st') -> st' = st.
Proof. destruct d; simpl; intros H; inversion H; subst; reflexivity. Qed.

Lemma cnf_get_ok key default st v st' :
  cnf_get key default st = (Ok v, st') -> st' = st.
Proof.
  unfold cnf_get. intros H. apply bind_ok in H as (c & st1 & H1 & H2).
  apply getattr_ok in H1 as [-> _]. eapply dict_get_ok. exact H2.
Qed.

Lemma py_assert_ok c msg st u st' :
  py_assert c msg st = (Ok u, st') -> c = true /\ st' = st.
Proof.
  unfold py_assert. destruct c; intros H; inversion H; subst. split; reflexivity.
Qed.

Lemma ret_ok {A} (a : A) st b st' : ret a st = (Ok b, st') -> b = a /\ st' = st.
Proof. intros H. inversion H; subst. split; reflexivity. Qed.

Lemma np_average_ok count weight st u st' :
  np_average count weight st = (Ok u, st') -> (count <> 0)%nat /\ weight <> 0 /\ st' = st.
Proof.
  unfold np_average. destruct (Z.of_nat count * weight =? 0) eqn:H; intros H0;
    inversion H0; subst.
  apply Z.eqb_neq in H. repeat split; [intros -> | intros ->]; lia.
Qed.

Lemma max_steps_of_cnf_get st v st' :
  cnf_get "max_steps" (VInt 10000000) st = (Ok v, st') ->
  forall m, v = VInt m -> max_steps_of st = Some m.
Proof.
  unfold cnf_get, max_steps_of. intros H m ->.
  apply bind_ok in H as (c & st1 & H1 & H2).
  apply getattr_ok in H1 as [-> Hc]. rewrite Hc.
  destruct c; simpl in H2; try discriminate;
    destruct (assoc "max_steps" items) as [[]|]; unfold ret in H2;
    inversion H2; subst; reflexivity.
Qed.

Section Epoch.

Variable env : Env.

(** What a successful run of the training [for] loop does: [k] training
    runs, the last of which is the [n]-th or exceeds [max_steps]. *)
Lemma train_iterations_ok n : forall done loc st r st',
  train_iterations env n done loc st = (Ok r, st') ->
  exists k,
    (k <= n)%nat /\
    attrs st' = attrs st /\ n_stop st' = n_stop st /\
    n_runs st' = (n_runs st + k)%nat /\
    trace st' = trace st ++ map ETrainStep (seq (n_runs st) k) /\
    epoch (snd r) = epoch loc /\
    (k = 0%nat -> snd r = loc /\ n = 0%nat) /\
    ((1 <= k)%nat ->
     step (snd r) = Some (snd (sess_run_train env (n_runs st + k - 1)))) /\
    ((k = n /\ fst r = (done + n)%nat) \/
     ((1 <= k)%nat /\ S (fst r) = (done + k)%nat /\
      exists m, max_steps_of st = Some m /\
                m < snd (sess_run_train env (n_runs st + k - 1)))).
Proof.
  induction n as [| n IH]; intros done loc st r st' H; simpl in H.
  - apply ret_ok in H as [-> ->]. exists 0%nat. simpl.
    rewrite app_nil_r, !Nat.add_0_r. repeat split; auto; lia.
  - apply bind_ok in H as (lr & st1 & H1 & H). apply getattr_ok in H1 as [-> _].
    apply bind_ok in H as (run & st2 & H2 & H).
    unfold run_train_op in H2. injection H2 as <- <-.
    apply bind_ok in H as (u & st3 & H3 & H). apply py_assert_ok in H3 as [_ ->].
    apply bind_ok in H as (ms & st4 & H4 & H).
    pose proof (max_steps_of_cnf_get _ _ _ H4) as Hmax.
    apply cnf_get_ok in H4 as ->.
    apply bind_ok in H as (m & st5 & H5 & H).
    destruct ms; try discriminate. apply ret_ok in H5 as [-> ->].
    specialize (Hmax z eq_refl).
    destruct (z <? snd (sess_run_train env (n_runs st))) eqn:Hlt.
    + apply ret_ok in H as [-> ->]. exists 1%nat. simpl.
      replace (n_runs st + 1 - 1)%nat with (n_runs st) by lia.
      repeat split; try lia; auto.
      right. split; [lia |]. split; [lia |]. exists z.
      split; [exact Hmax | apply Z.ltb_lt; exact Hlt].
    + apply bind_ok in H as (loc1 & st6 & H6 & H).
      assert (st6 = mkSt (attrs st) (trace st ++ [ETrainStep (n_runs st)])
                      (losses_collection st) (S (n_runs st)) (n_stop st) /\
              epoch loc1 = epoch loc /\
              step loc1 = Some (snd (sess_run_train env (n_runs st)))) as (-> & Hep & Hst).
      { destruct (snd (sess_run_train env (n_runs st)) mod 30 =? 0).
        - apply bind_ok in H6 as (b & st7 & H7 & H6). apply cnf_get_ok in H7 as ->.
          apply ret_ok in H6 as [-> ->]. repeat split; reflexivity.
        - apply ret_ok in H6 as [-> ->]. repeat split; reflexivity. }
      apply bind_ok in H as (u1 & st7 & H7 & H).
      assert (st7 = mkSt (attrs st) (trace st ++ [ETrainStep (n_runs st)])
                      (losses_collection st) (S (n_runs st)) (n_stop st)) as ->.
      { destruct (format_str_bound loc1); [| discriminate].
        apply ret_ok in H7 as [_ ->]. reflexivity. }
      apply bind_ok in H as (u2 & st8 & H8 & H). apply cnf_get_ok in H8 as ->.
      apply bind_ok in H as (u3 & st9 & H9 & H). apply getattr_ok in H9 as [-> _].
      apply IH in H as (k & Hk & Ha & Hs & Hr & Ht & He & H0 & H1 & Hd). simpl in *.
      exists (S k).
      split; [lia |]. split; [exact Ha |]. split; [exact Hs |]. split; [lia |].
      split; [rewrite Ht, <- app_assoc; reflexivity |].
      split; [congruence |]. split; [lia |]. split.
      * intros _. destruct k as [| k].
        -- destruct (H0 eq_refl) as [-> _]. simpl. rewrite Hst.
           replace (n_runs st + 1 - 1)%nat with (n_runs st) by lia. reflexivity.
        -- specialize (H1 ltac:(lia)). rewrite H1.
           match goal with
           | |- Some (snd (sess_run_train env ?a)) = Some (snd (sess_run_train env ?b)) =>
               replace a with b by lia
           end.
           reflexivity.
      * destruct Hd as [[-> ->] | (Hk1 & Hd1 & m' & Hm & Hl)].
        -- left. split; [reflexivity | lia].
        -- right. split; [lia |]. split; [lia |]. exists m'. split; [exact Hm |].
           match type of Hl with
           | _ < snd (sess_run_train env ?a) =>
               match goal with
               | |- _ < snd (sess_run_train env ?b) => replace b with a by lia
               end
           end.
           exact Hl.
Qed.

Lemma validation_iterations_ok n : forall st u st',
  validation_iterations n st = (Ok u, st') ->
  attrs st' = attrs st /\ n_stop st' = n_stop st /\ n_runs st' = n_runs st /\
  trace st' = trace st ++ repeat EValStep n.
Proof.
  induction n as [| n IH]; intros st u st' H; simpl in H.
  - apply ret_ok in H as [_ ->]. rewrite app_nil_r. auto.
  - apply bind_ok in H as (a1 & st1 & H1 & H). apply getattr_ok in H1 as [-> _].
    apply bind_ok in H as (a2 & st2 & H2 & H). apply getattr_ok in H2 as [-> _].
    apply bind_ok in H as (a3 & st3 & H3 & H). injection H3 as _ <-.
    apply bind_ok in H as (a4 & st4 & H4 & H).
    unfold validation_metrics in H4.
    apply bind_ok in H4 as (a5 & st5 & H5 & H4). apply getattr_ok in H5 as [-> _].
    apply ret_ok in H4 as [_ ->].
    apply IH in H as (Ha & Hs & Hr & Ht). simpl in *.
    repeat split; auto. rewrite Ht, <- app_assoc. reflexivity.
Qed.

End Epoch.

Lemma count_train_steps_app evs1 evs2 :
  count_train_steps (evs1 ++ evs2) = (count_train_steps evs1 + count_train_steps evs2)%nat.
Proof. unfold count_train_steps. rewrite List.filter_app, length_app. reflexivity. Qed.

Lemma count_val_steps_app evs1 evs2 :
  count_val_steps (evs1 ++ evs2) = (count_val_steps evs1 + count_val_steps evs2)%nat.
Proof. unfold count_val_steps. rewrite List.filter_app, length_app. reflexivity. Qed.

Lemma count_steps_train l :
  count_train_steps (map ETrainStep l) = length l /\ count_val_steps (map ETrainStep l) = 0%nat.
Proof.
  unfold count_train_steps, count_val_steps.
  induction l as [| x l [IH1 IH2]]; simpl; [split; reflexivity |].
  rewrite IH1, IH2. split; reflexivity.
Qed.

Lemma count_steps_val n :
  count_train_steps (repeat EValStep n) = 0%nat /\ count_val_steps (repeat EValStep n) = n.
Proof.
  unfold count_train_steps, count_val_steps.
  induction n as [| n [IH1 IH2]]; simpl; [split; reflexivity |].
  rewrite IH1, IH2. split; reflexivity.
Qed.

Section EpochBody.

Variable env : Env.

(** The trace and the locals of an epoch that completes. *)
Lemma epoch_body_ok is_chief dataset loc st loc' st' :
  epoch_body env is_chief dataset loc st = (Ok loc', st') ->
  exists k,
    trace st' = trace st ++
      map ETrainStep (seq (n_runs st) k) ++
      repeat EValStep (Z.to_nat (n_val_iters_per_epoch dataset)) ++
      (if is_chief then [ESave (step loc')] else []) /\
    (1 <= k <= Z.to_nat (n_iters_per_epoch dataset))%nat /\
    step loc' = Some (snd (sess_run_train env (n_runs st + k - 1))) /\
    (k = Z.to_nat (n_iters_per_epoch dataset) \/
     exists m, max_steps_of st = Some m /\
               m < snd (sess_run_train env (n_runs st + k - 1))) /\
    (1 <= Z.to_nat (n_val_iters_per_epoch dataset))%nat /\
    n_runs st' = (n_runs st + k)%nat /\ n_stop st' = n_stop st /\
    attrs st' = attrs st /\
    epoch loc' = epoch loc + 1 /\
    len_images env <> 0 /\ len_val_images env <> 0.
Proof.
  unfold epoch_body. intros H.
  apply bind_ok in H as (r & st1 & H1 & H).
  apply train_iterations_ok in H1 as (k & Hk & Ha & Hs & Hr & Ht & He & H0 & Hst & Hd).
  apply bind_ok in H as (u1 & st2 & H2 & H). apply np_average_ok in H2 as (Hc & Hw1 & ->).
  apply bind_ok in H as (u2 & st3 & H3 & H). apply getattr_ok in H3 as [-> _].
  apply bind_ok in H as (u3 & st4 & H4 & H).
  apply validation_iterations_ok in H4 as (Ha4 & Hs4 & Hr4 & Ht4).
  apply bind_ok in H as (u4 & st5 & H5 & H). apply np_average_ok in H5 as (Hv & Hw2 & ->).
  apply bind_ok in H as (u5 & st6 & H6 & H). apply getattr_ok in H6 as [-> _].
  apply bind_ok in H as (u6 & st7 & H7 & H). apply getattr_ok in H7 as [-> _].
  apply bind_ok in H as (u7 & st8 & H8 & H). apply ret_ok in H as [-> ->].
  exists k. simpl.
  assert (Hk1 : (1 <= k)%nat).
  { destruct Hd as [[-> Hd] | (Hd & _)]; simpl in *; lia. }
  assert (Hsave : trace st8 = trace st4 ++ (if is_chief then [ESave (step (snd r))] else []) /\
                  n_runs st8 = n_runs st4 /\ attrs st8 = attrs st4 /\
                  n_stop st8 = n_stop st4).
  { destruct is_chief.
    - apply bind_ok in H8 as (w & st9 & H9 & H8). apply getattr_ok in H9 as [-> _].
      destruct (step (snd r)); [| discriminate]. unfold emit in H8.
      inversion H8; subst. simpl. auto.
    - apply ret_ok in H8 as [_ ->]. rewrite app_nil_r. auto. }
  destruct Hsave as (Ht8 & Hr8 & Ha8 & Hs8).
  split; [rewrite Ht8, Ht4, Ht, <- !app_assoc; reflexivity |].
  split; [lia |]. split; [apply Hst; exact Hk1 |]. split.
  - destruct Hd as [[-> _] | (_ & _ & m & Hm & Hlt)]; [left; reflexivity |].
    right. exists m. auto.
  - repeat split; try lia; try congruence.
Qed.

End EpochBody.

Lemma try_except_ok {A} (body : M A) handler st a st' :
  body st = (Ok a, st') -> try_except body handler st = (Ok a, st').
Proof. unfold try_except. intros ->. reflexivity. Qed.

(** C4, as amended: an iteration of the epoch loop that completes without
    raising runs training steps, then validation steps, then the chief's
    save, in this order; the training steps are [n_iters_per_epoch], or
    fewer when the global step of the last one exceeds [max_steps]; the
    validation steps are [n_val_iters_per_epoch]; and the epoch counter
    increases by one. *)
Theorem completed_epoch_steps env is_chief dataset loc st loc' st' :
  epoch_body env is_chief dataset loc st = (Ok loc', st') ->
  let evs := emitted (try_except (epoch_body env is_chief dataset loc)
                        (epoch_handler env)) st in
  (exists k,
     evs = map ETrainStep (seq (n_runs st) k) ++
           repeat EValStep (Z.to_nat (n_val_iters_per_epoch dataset)) ++
           (if is_chief then [ESave (step loc')] else []) /\
     count_train_steps evs = k) /\
  epoch_as_claimed env is_chief dataset loc st /\
  epoch loc' = epoch loc + 1.
Proof.
  intros H evs.
  pose proof (epoch_body_ok env is_chief dataset loc st loc' st' H)
    as (k & Ht & Hk & Hst & Hd & Hv & Hr & Hs & Ha & He & _).
  assert (Hevs : evs = map ETrainStep (seq (n_runs st) k) ++
                       repeat EValStep (Z.to_nat (n_val_iters_per_epoch dataset)) ++
                       (if is_chief then [ESave (step loc')] else [])).
  { subst evs. unfold emitted. rewrite (try_except_ok _ _ _ _ _ H). simpl.
    rewrite Ht, drop_app_length. reflexivity. }
  assert (Hct : count_train_steps evs = k).
  { rewrite Hevs, !count_train_steps_app.
    rewrite (proj1 (count_steps_train _)), (proj1 (count_steps_val _)), length_seq.
    destruct is_chief; unfold count_train_steps; simpl; lia. }
  assert (Hcv : count_val_steps evs = Z.to_nat (n_val_iters_per_epoch dataset)).
  { rewrite Hevs, !count_val_steps_app.
    rewrite (proj2 (count_steps_train _)), (proj2 (count_steps_val _)).
    destruct is_chief; unfold count_val_steps; simpl; lia. }
  split; [exists k; split; [exact Hevs | exact Hct] |].
  split; [| exact He].
  unfold epoch_as_claimed. fold evs. rewrite Hct, Hcv. split; [| reflexivity].
  destruct Hd as [-> | Hd]; [left; reflexivity |].
  destruct (Nat.eq_dec k (Z.to_nat (n_iters_per_epoch dataset))) as [-> | Hne];
    [left; reflexivity | right].
  split; [lia | exact Hd].
Qed.

Lemma completed_epoch_steps_witness :
  epoch_as_claimed example_env true (mkDataset 2 1) (mkLocals 1 1 None false) example_state /\
  epoch {| epoch := 2; batch_iter_idx := 3; step := Some 30; format_str_bound := true |}
  = 1 + 1.
Proof.
  apply (completed_epoch_steps example_env true (mkDataset 2 1) (mkLocals 1 1 None false)
           example_state
           {| epoch := 2; batch_iter_idx := 3; step := Some 30; format_str_bound := true |}
           (mkSt example_attrs [ETrainStep 0; ETrainStep 1; EValStep; ESave (Some 30)]
              [] 2 0)).
  reflexivity.
Defined.

(** C4, as worded, fails: when the first training run of an epoch yields a
    NaN loss, the assertion of line 235 ends the iteration after one of the
    two training steps, with the global step 0 far below [max_steps], and no
    validation step runs. *)
Lemma nan_epoch_is_not_as_claimed :
  result (try_except (epoch_body nan_env false (mkDataset 2 1) (mkLocals 1 1 None false))
            (epoch_handler nan_env)) example_state
  = Raise (AssertionError "Model diverged with loss = NaN") /\
  ~ epoch_as_claimed nan_env false (mkDataset 2 1) (mkLocals 1 1 None false) example_state.
Proof.
  split; [reflexivity |].
  unfold epoch_as_claimed.
  replace (emitted (try_except (epoch_body nan_env false (mkDataset 2 1)
                                  (mkLocals 1 1 None false)) (epoch_handler nan_env))
             example_state)
    with [ETrainStep 0; ERunCleanUp] by reflexivity.
  intros [_ H]. vm_compute in H. discriminate.
Qed.

(** ** [fit] *)

Lemma terminates_bind {A B} (m : M A) (k : A -> M B) :
  terminates m -> (forall a, terminates (k a)) -> terminates (bind m k).
Proof.
  intros Hm Hk st. unfold bind. specialize (Hm st).
  destruct (m st) as [[a | e |] st1]; simpl in *;
    [apply Hk | discriminate | exfalso; apply Hm; reflexivity].
Qed.

Lemma terminates_simple {A} (m : M A) :
  (forall st, (exists a, fst (m st) = Ok a) \/ (exists e, fst (m st) = Raise e)) ->
  terminates m.
Proof. intros H st. destruct (H st) as [[a ->] | [e ->]]; discriminate. Qed.

Lemma terminates_getattr name : terminates (getattr name).
Proof.
  intros st. unfold getattr. destruct (attrs st !! name); discriminate.
Qed.

Lemma terminates_dict_get d key default : terminates (dict_get d key default).
Proof. destruct d; intros st; simpl; discriminate. Qed.

Lemma terminates_dict_getitem d key : terminates (dict_getitem d key).
Proof.
  destruct d; intros st; simpl; try discriminate; destruct (assoc key items); discriminate.
Qed.

Lemma terminates_py_call d : terminates (py_call d).
Proof. destruct d; intros st; simpl; discriminate. Qed.

Ltac term_step :=
  first [ apply terminates_getattr | apply terminates_dict_get
        | apply terminates_dict_getitem | apply terminates_py_call
        | apply terminates_bind; [| intros ]
        | match goal with
          | |- terminates (if ?b then _ else _) => destruct b
          | |- terminates (match ?x with _ => _ end) => destruct x
          end
        | solve [intros ?; discriminate]
        | solve [intros ?; cbv; discriminate] ].

Lemma terminates_fit_prelude env datadir : terminates (fit_prelude env datadir).
Proof.
  unfold fit_prelude, _setup_data_ops, _setup_misc, _print_info, cnf_get, dict_get,
    fmt_d_val.
  repeat term_step.
Qed.

Lemma sat_fit_prelude env datadir :
  sat prelude_event prelude_exn (fit_prelude env datadir).
Proof.
  unfold fit_prelude, _setup_data_ops, _setup_misc, _print_info.
  sat_auto ltac:(first
    [ triv | solve [left; exact I] | solve [right; reflexivity]
    | apply sat_impl with (P := fun _ => False) (E := lookup_exn);
        [intros ? [] | intros ? H; left; exact H |];
      first [ apply sat_cnf_get | apply sat_fmt_d_val ] ]).
Qed.

(** [fit] is its preparation followed by the call of [train] with the four
    constants of lines 95-96. *)
Lemma fit_prelude_train env fuel task_id target dataset datadir cluster_spec is_training
    start_epoch reuse n vars st :
  fit env fuel task_id target dataset datadir cluster_spec is_training start_epoch
    reuse n vars st
  = bind (fit_prelude env datadir)
      (fun dataflow => train env fuel task_id target dataset dataflow cluster_spec
                         is_training 1 VNone (-1) VNone) st.
Proof.
  unfold fit, fit_prelude, bind.
  repeat match goal with
         | |- context [match ?m ?s with _ => _ end] =>
             destruct (m s) as [[? | ? |] ?]; try reflexivity
         end.
Qed.

Lemma emitted_bind_ok {A B} P E P' E' (m : M A) (k : A -> M B) st a st1 :
  sat P E m -> sat P' E' (k a) -> m st = (Ok a, st1) ->
  emitted (bind m k) st = emitted m st ++ emitted (k a) st1.
Proof.
  intros Hm Hk Heq. unfold emitted at 1 2. unfold bind. rewrite Heq. simpl.
  destruct (Hm st) as (evs1 & H1 & _ & _). rewrite Heq in H1. simpl in H1.
  rewrite (sat_trace _ _ _ _ Hk), H1, <- app_assoc, !drop_app_length. reflexivity.
Qed.

Lemma train_emits_call env fuel task_id target dataset dataflow cluster_spec is_training
    start_epoch reuse n vars st :
  In (ECall "train" (train_kwargs start_epoch reuse n vars))
     (emitted (train env fuel task_id target dataset dataflow cluster_spec is_training
                 start_epoch reuse n vars) st).
Proof.
  unfold train.
  match goal with
  | |- context [emitted (bind (emit ?e) ?k) ?s] =>
      destruct (emitted_emit_bind
                  (train_event task_id target cluster_spec
                     (train_kwargs start_epoch reuse n vars))
                  train_exn e k s) as [He _]
  end.
  - cbv beta. unfold py_assert.
    sat_auto ltac:(first
      [ solve [right; reflexivity]
      | apply sat_impl with (P := fun _ => False) (E := lookup_exn);
          [intros ? [] | intros ? H; left; apply lookup_body_exn, H | apply sat_cluster_job]
      | eapply sat_impl; [ | | apply sat_train_build ];
          [intros ? H; left; eexists; exact H | intros ? H; left; exact H] ]).
  - rewrite He. left. reflexivity.
Qed.

(** C3: [fit] does not look at its arguments [start_epoch], [reuse],
    [num_replicas_to_aggregate] and [variables_to_train]: it behaves as with
    their defaults, every call of [train] it makes carries [start_epoch=1],
    [reuse=None], [num_replicas_to_aggregate=-1], [variables_to_train=None],
    and it makes that call unless its preparation (lines 89-94) raises. *)
Theorem fit_ignores_training_arguments env fuel task_id target dataset datadir cluster_spec
    is_training start_epoch reuse n vars st :
  let m := fit env fuel task_id target dataset datadir cluster_spec is_training
             start_epoch reuse n vars in
  m st = fit env fuel task_id target dataset datadir cluster_spec is_training
           1 VNone (-1) VNone st /\
  Forall (fun e => forall kw, e = ECall "train" kw ->
                     kw = [("start_epoch", VInt 1); ("reuse", VNone);
                           ("num_replicas_to_aggregate", VInt (-1));
                           ("variables_to_train", VNone)])
    (emitted m st) /\
  (In (ECall "train" [("start_epoch", VInt 1); ("reuse", VNone);
                      ("num_replicas_to_aggregate", VInt (-1));
                      ("variables_to_train", VNone)]) (emitted m st) \/
   exists e, result m st = Raise e /\ prelude_exn e /\
             result (fit_prelude env datadir) st = Raise e).
Proof.
  intros m. split; [reflexivity |]. split.
  - eapply Forall_impl; [eapply sat_emitted; apply sat_fit |].
    intros e He kw ->. simpl in He.
    destruct He as [[nw [H _]] | H]; [discriminate | injection H as ->; reflexivity].
  - subst m.
    set (k := fun dataflow => train env fuel task_id target dataset dataflow cluster_spec
                                is_training 1 VNone (-1) VNone).
    assert (Hem : emitted (fit env fuel task_id target dataset datadir cluster_spec
                             is_training start_epoch reuse n vars) st
                  = emitted (bind (fit_prelude env datadir) k) st)
      by (unfold emitted; rewrite fit_prelude_train; reflexivity).
    assert (Hre : result (fit env fuel task_id target dataset datadir cluster_spec
                            is_training start_epoch reuse n vars) st
                  = result (bind (fit_prelude env datadir) k) st)
      by (unfold result; rewrite fit_prelude_train; reflexivity).
    rewrite Hem, Hre. clear Hem Hre. unfold result.
    pose proof (terminates_fit_prelude env datadir st) as Hterm.
    pose proof (sat_fit_prelude env datadir) as Hsat.
    destruct (fit_prelude env datadir st) as [[dataflow | e |] st1] eqn:Hp.
    + left. erewrite emitted_bind_ok; [| exact Hsat | apply sat_train | exact Hp].
      apply in_or_app. right. apply train_emits_call.
    + right. exists e. unfold bind. rewrite Hp. simpl.
      split; [reflexivity | split; [| reflexivity]].
      eapply sat_result; [exact Hsat |]. unfold result. rewrite Hp. reflexivity.
    + exfalso. apply Hterm. reflexivity.
Qed.

(** ** Further properties of the code *)







Section Termination.

Variable env : Env.










End Termination.


Section NeverReturns.

Variable env : Env.



Lemma build_phase_of_build devs e : build_event devs e -> is_build_phase_event e = true.
Proof. destruct e; simpl; intros H; solve [reflexivity | destruct H]. Qed.



End NeverReturns.



Section ChiefSession.

Variable env : Env.



End ChiefSession.
















Section EpochLoop.

Variable env : Env.







End EpochLoop.














Section Losses.

Variable env : Env.





End Losses.



Section SessionOrder.

Variable env : Env.




End SessionOrder.





(** *** Attributes a computation needs *)


















